(** * check-node-pairs: the gateway handshake client

    A shallow embedding of [scripts/check-node-pairs.py]: the frame handler
    [on_message] with the closure state it mutates, the JSON codec it calls
    ([json.loads] / [json.dumps]), the transport loop that drives the
    callbacks, the final [check_node_pairs] verdict, [print_result] and
    [main] with the URL it builds.

    Modelling conventions.
    - The handler, the loop and the verdict are defined over a [runtime]:
      what [json.loads] returns or raises on each message, and what
      [ws.send] and [ws.close] raise, if anything.  The definitions with the
      suffix [_in] take the runtime as a parameter; [on_message],
      [run_forever] and [check_node_pairs] are their instances in the
      [reference] runtime, where [json.loads] is the codec of this file and
      the transport calls succeed.
    - A Python [str] is a Rocq [string], one [ascii] per code point, so the
      reference codec covers text over the code points 0..255: a [\uXXXX]
      escape that names a code point above 255 has no value in it, and
      interpreter limits (recursion depth, the digit limit of [int]) are not
      part of it.  What is proved for every runtime does not depend on the
      reference codec.
    - [outbox] holds the texts handed to [ws.send], [close_requested] tells
      whether [ws.close] was called, whether or not the call then raised.
    - The [websocket] package is taken to be installed, so the import at the
      head of [check_node_pairs] succeeds. *)

From Stdlib Require Import ZArith NArith List String Ascii Bool Lia.
From Stdlib Require Import DecimalString.
Import ListNotations.
Open Scope string_scope.

(** ** Python values *)

(** A float read from a JSON document: the decimal it was written as
    ([mantissa * 10 ^ exponent]) or one of the three special literals. *)
Inductive pyfloat : Type :=
| FDec (mantissa exponent : Z)
| FInf (negative : bool)
| FNaN.

#[warnings="-register-all"]
Inductive pyval : Type :=
| PyNone
| PyBool (b : bool)
| PyInt (n : Z)
| PyFloat (f : pyfloat)
| PyStr (s : string)
| PyList (items : list pyval)
| PyDict (entries : list (string * pyval)).

(** A [dict] with string keys, in insertion order. *)
Definition pydict := list (string * pyval).

Fixpoint dict_lookup (d : pydict) (k : string) : option pyval :=
  match d with
  | [] => None
  | (k', v) :: rest => if k' =? k then Some v else dict_lookup rest k
  end.

(** [d[k] = v]: an existing key keeps its place, a new one goes last. *)
Fixpoint dict_set (d : pydict) (k : string) (v : pyval) : pydict :=
  match d with
  | [] => [(k, v)]
  | (k', v') :: rest =>
      if k' =? k then (k', v) :: rest else (k', v') :: dict_set rest k v
  end.

(** [k in d] *)
Definition dict_contains (d : pydict) (k : string) : bool :=
  match dict_lookup d k with Some _ => true | None => false end.

(** [d.get(k)] and [d.get(k, default)] *)
Definition dict_get (d : pydict) (k : string) : pyval :=
  match dict_lookup d k with Some v => v | None => PyNone end.

Definition dict_get_default (d : pydict) (k : string) (default : pyval) : pyval :=
  match dict_lookup d k with Some v => v | None => default end.

(** A decimal literal denotes [0.0] when its mantissa is zero or when its
    value is at most half the least subnormal double, [2 ^ -1075]. *)
Definition float_is_zero (f : pyfloat) : bool :=
  match f with
  | FDec m e =>
      (m =? 0)%Z
      || ((e <? 0)%Z && (Z.abs m * 2 ^ 1075 <=? 10 ^ (- e))%Z)
  | FInf _ | FNaN => false
  end.

(** [bool(v)] *)
Definition truthy (v : pyval) : bool :=
  match v with
  | PyNone => false
  | PyBool b => b
  | PyInt n => negb (n =? 0)%Z
  | PyFloat f => negb (float_is_zero f)
  | PyStr s => negb (s =? "")
  | PyList items => match items with [] => false | _ => true end
  | PyDict entries => match entries with [] => false | _ => true end
  end.

(** [v == s] for a [str] [s] *)
Definition eq_str (v : pyval) (s : string) : bool :=
  match v with PyStr s' => s' =? s | _ => false end.

(** [type(v).__name__] *)
Definition type_name (v : pyval) : string :=
  match v with
  | PyNone => "NoneType"
  | PyBool _ => "bool"
  | PyInt _ => "int"
  | PyFloat _ => "float"
  | PyStr _ => "str"
  | PyList _ => "list"
  | PyDict _ => "dict"
  end.

(** ** Exceptions *)

Inductive exn : Type :=
| JSONDecodeError
| KeyError (key : string)
| AttributeError (type_of_object attribute : string)
| TypeError (message : string)
| ValueError (message : string)
| OtherError (message : string).

(** [str(e)].  The text of a decode error is never read by the program and
    is not modelled. *)
Definition exn_str (e : exn) : string :=
  match e with
  | JSONDecodeError => ""
  | KeyError k => "'" ++ k ++ "'"
  | AttributeError t a => "'" ++ t ++ "' object has no attribute '" ++ a ++ "'"
  | TypeError m => m
  | ValueError m => m
  | OtherError m => m
  end.

(** ** The JSON codec: reading

    [json.loads] as a scanner over the characters of the message followed by
    a shift-reduce parser over the tokens.  Both are total and structurally
    recursive; [None] stands for [json.JSONDecodeError]. *)

Inductive json_token : Type :=
| TLBrace | TRBrace | TLBracket | TRBracket | TColon | TComma
| TStr (s : string)
| TScalar (v : pyval).

Definition is_digit (c : ascii) : bool :=
  let n := N_of_ascii c in ((48 <=? n) && (n <=? 57))%N.

Definition is_space (c : ascii) : bool :=
  let n := N_of_ascii c in
  ((n =? 32) || (n =? 9) || (n =? 10) || (n =? 13))%N.

(** Characters of a number or of a literal name. *)
Definition is_bare (c : ascii) : bool :=
  let n := N_of_ascii c in
  (((48 <=? n) && (n <=? 57)) || ((65 <=? n) && (n <=? 90))
   || ((97 <=? n) && (n <=? 122))
   || (n =? 43) || (n =? 45) || (n =? 46))%N.

Definition hex_value (c : ascii) : option N :=
  let n := N_of_ascii c in
  if ((48 <=? n) && (n <=? 57))%N then Some (n - 48)%N
  else if ((97 <=? n) && (n <=? 102))%N then Some (n - 87)%N
  else if ((65 <=? n) && (n <=? 70))%N then Some (n - 55)%N
  else None.

Fixpoint span_digits (s : string) : string * string :=
  match s with
  | String c rest =>
      if is_digit c
      then let (ds, r) := span_digits rest in (String c ds, r)
      else ("", s)
  | EmptyString => ("", "")
  end.

Fixpoint digits_value (acc : Z) (ds : string) : Z :=
  match ds with
  | String c rest => digits_value (10 * acc + Z.of_N (N_of_ascii c - 48)) rest
  | EmptyString => acc
  end.

(** The integer part of a JSON number: [0] or a digit string without a
    leading zero. *)
Definition int_part_ok (ds : string) : bool :=
  match ds with
  | EmptyString => false
  | String c rest => negb (Ascii.eqb c "0") || (rest =? "")
  end.

(** Exponent of a number, after the [e]: an optional sign and digits up to
    the end of the lexeme. *)
Definition read_exponent (s : string) : option Z :=
  let (neg, s1) :=
    match s with
    | String "-" r => (true, r)
    | String "+" r => (false, r)
    | _ => (false, s)
    end in
  let (es, r) := span_digits s1 in
  if (es =? "") || negb (r =? "") then None
  else Some (if neg then - digits_value 0 es else digits_value 0 es)%Z.

(** A JSON number: an optional minus, the integer part, an optional fraction
    (a dot and at least one digit), an optional exponent.  It is an [int] when
    there is neither fraction nor exponent, a [float] otherwise. *)
Definition read_number (w : string) : option pyval :=
  let (neg, s0) := match w with String "-" r => (true, r) | _ => (false, w) end in
  let sign (z : Z) := if neg then (- z)%Z else z in
  let (ds, s1) := span_digits s0 in
  if negb (int_part_ok ds) then None
  else
    let '(fs, has_frac, s2) :=
      match s1 with
      | String "." r => let (fs, r') := span_digits r in (fs, true, r')
      | _ => ("", false, s1)
      end in
    if has_frac && (fs =? "") then None
    else
      let m := sign (digits_value 0 (ds ++ fs)) in
      let shift := Z.of_nat (String.length fs) in
      match s2 with
      | EmptyString =>
          Some (if has_frac then PyFloat (FDec m (- shift)) else PyInt m)
      | String c r =>
          if Ascii.eqb c "e" || Ascii.eqb c "E"
          then match read_exponent r with
               | Some e => Some (PyFloat (FDec m (e - shift)))
               | None => None
               end
          else None
      end.

(** A maximal run of bare characters is a literal name or a number. *)
Definition read_bare (w : string) : option pyval :=
  if w =? "true" then Some (PyBool true)
  else if w =? "false" then Some (PyBool false)
  else if w =? "null" then Some PyNone
  else if w =? "NaN" then Some (PyFloat FNaN)
  else if w =? "Infinity" then Some (PyFloat (FInf false))
  else if w =? "-Infinity" then Some (PyFloat (FInf true))
  else read_number w.

Definition quote : ascii := "034"%char.
Definition backslash : ascii := "092"%char.

Inductive lstate : Type :=
| LNormal
| LBare (w : string)
| LStr (acc : string)
| LEsc (acc : string)
| LHex (acc : string) (remaining : nat) (code : N).

Definition structural (c : ascii) : option json_token :=
  if Ascii.eqb c "{" then Some TLBrace
  else if Ascii.eqb c "}" then Some TRBrace
  else if Ascii.eqb c "[" then Some TLBracket
  else if Ascii.eqb c "]" then Some TRBracket
  else if Ascii.eqb c ":" then Some TColon
  else if Ascii.eqb c "," then Some TComma
  else None.

Definition push_char (acc : string) (c : ascii) : string := acc ++ String c "".

(** A character met between tokens. *)
Definition lex_start (toks : list json_token) (c : ascii)
  : option (lstate * list json_token) :=
  if is_space c then Some (LNormal, toks)
  else match structural c with
       | Some t => Some (LNormal, (toks ++ [t])%list)
       | None =>
           if Ascii.eqb c quote then Some (LStr "", toks)
           else if is_bare c then Some (LBare (String c ""), toks)
           else None
       end.

(** The character after a backslash inside a string. *)
Definition lex_escape (acc : string) (c : ascii) : option lstate :=
  if Ascii.eqb c quote || Ascii.eqb c backslash || Ascii.eqb c "/"
  then Some (LStr (push_char acc c))
  else if Ascii.eqb c "b" then Some (LStr (push_char acc "008"))
  else if Ascii.eqb c "f" then Some (LStr (push_char acc "012"))
  else if Ascii.eqb c "n" then Some (LStr (push_char acc "010"))
  else if Ascii.eqb c "r" then Some (LStr (push_char acc "013"))
  else if Ascii.eqb c "t" then Some (LStr (push_char acc "009"))
  else if Ascii.eqb c "u" then Some (LHex acc 4 0)
  else None.

Definition lex_step (st : lstate) (toks : list json_token) (c : ascii)
  : option (lstate * list json_token) :=
  match st with
  | LNormal => lex_start toks c
  | LBare w =>
      if is_bare c then Some (LBare (push_char w c), toks)
      else match read_bare w with
           | Some v => lex_start (toks ++ [TScalar v])%list c
           | None => None
           end
  | LStr acc =>
      if Ascii.eqb c quote then Some (LNormal, (toks ++ [TStr acc])%list)
      else if Ascii.eqb c backslash then Some (LEsc acc, toks)
      else if (N_of_ascii c <? 32)%N then None
      else Some (LStr (push_char acc c), toks)
  | LEsc acc =>
      match lex_escape acc c with
      | Some st' => Some (st', toks)
      | None => None
      end
  | LHex acc remaining code =>
      match hex_value c with
      | Some d =>
          let code' := (16 * code + d)%N in
          match remaining with
          | 1 => if (code' <? 256)%N
                 then Some (LStr (push_char acc (ascii_of_N code')), toks)
                 else None
          | S remaining' => Some (LHex acc remaining' code', toks)
          | O => None
          end
      | None => None
      end
  end.

(** At the end of the message a pending bare word is closed; an open
    string is an error. *)
Definition lex_end (st : lstate) (toks : list json_token) : option (list json_token) :=
  match st with
  | LNormal => Some toks
  | LBare w =>
      match read_bare w with
      | Some v => Some (toks ++ [TScalar v])%list
      | None => None
      end
  | _ => None
  end.

Fixpoint lex_run (st : lstate) (toks : list json_token) (s : string)
  : option (list json_token) :=
  match s with
  | EmptyString => lex_end st toks
  | String c rest =>
      match lex_step st toks c with
      | Some (st', toks') => lex_run st' toks' rest
      | None => None
      end
  end.

(** Containers under construction, innermost first: an array with the items
    read so far, or an object with its entries and the key whose value is
    being read. *)
Inductive ctx : Type :=
| CArr (items : list pyval)
| CObj (entries : pydict) (key : string).

Inductive pstate : Type :=
| PValue (stack : list ctx)
| PArrOpen (stack : list ctx)
| PObjOpen (stack : list ctx)
| PKey (entries : pydict) (stack : list ctx)
| PColon (entries : pydict) (key : string) (stack : list ctx)
| PArrNext (items : list pyval) (stack : list ctx)
| PObjNext (entries : pydict) (stack : list ctx)
| PDone (v : pyval).

(** A finished value goes to the container that waits for it. *)
Definition deliver (v : pyval) (stack : list ctx) : pstate :=
  match stack with
  | [] => PDone v
  | CArr items :: stack' => PArrNext (items ++ [v])%list stack'
  | CObj entries key :: stack' => PObjNext (dict_set entries key v) stack'
  end.

Definition start_value (t : json_token) (stack : list ctx) : option pstate :=
  match t with
  | TScalar v => Some (deliver v stack)
  | TStr s => Some (deliver (PyStr s) stack)
  | TLBracket => Some (PArrOpen stack)
  | TLBrace => Some (PObjOpen stack)
  | _ => None
  end.

Definition parse_step (st : pstate) (t : json_token) : option pstate :=
  match st, t with
  | PValue stack, _ => start_value t stack
  | PArrOpen stack, TRBracket => Some (deliver (PyList []) stack)
  | PArrOpen stack, _ => start_value t (CArr [] :: stack)
  | PObjOpen stack, TRBrace => Some (deliver (PyDict []) stack)
  | PObjOpen stack, TStr k => Some (PColon [] k stack)
  | PKey entries stack, TStr k => Some (PColon entries k stack)
  | PColon entries k stack, TColon => Some (PValue (CObj entries k :: stack))
  | PArrNext items stack, TComma => Some (PValue (CArr items :: stack))
  | PArrNext items stack, TRBracket => Some (deliver (PyList items) stack)
  | PObjNext entries stack, TComma => Some (PKey entries stack)
  | PObjNext entries stack, TRBrace => Some (deliver (PyDict entries) stack)
  | _, _ => None
  end.

Fixpoint parse_run (st : pstate) (toks : list json_token) : option pyval :=
  match toks with
  | [] => match st with PDone v => Some v | _ => None end
  | t :: rest =>
      match parse_step st t with
      | Some st' => parse_run st' rest
      | None => None
      end
  end.

(** [json.loads(message)]; [None] is [json.JSONDecodeError]. *)
Definition loads (message : string) : option pyval :=
  match lex_run LNormal [] message with
  | Some toks => parse_run (PValue []) toks
  | None => None
  end.

(** ** The JSON codec: writing *)

Definition hex_digit (d : N) : ascii :=
  if (d <? 10)%N then ascii_of_N (48 + d) else ascii_of_N (87 + d).

(** One character of a string, as [json.dumps] writes it with its default
    [ensure_ascii=True]. *)
Definition escape_char (c : ascii) : string :=
  let n := N_of_ascii c in
  if (n =? 34)%N then String backslash (String quote "")
  else if (n =? 92)%N then String backslash (String backslash "")
  else if (n =? 10)%N then String backslash "n"
  else if (n =? 13)%N then String backslash "r"
  else if (n =? 9)%N then String backslash "t"
  else if (n =? 8)%N then String backslash "b"
  else if (n =? 12)%N then String backslash "f"
  else if ((n <? 32) || (126 <? n))%N
       then String backslash
              (String "u" (String "0" (String "0"
                (String (hex_digit (n / 16)) (String (hex_digit (n mod 16)) "")))))
  else String c "".

Fixpoint escape (s : string) : string :=
  match s with
  | EmptyString => ""
  | String c rest => escape_char c ++ escape rest
  end.

Definition dumps_str (s : string) : string :=
  String quote (escape s ++ String quote "").

Definition dumps_int (n : Z) : string := NilZero.string_of_int (Z.to_int n).

(** No float is ever serialised by this program; the model writes one as
    the decimal it stands for (Python would write its shortest repr). *)
Definition dumps_float (f : pyfloat) : string :=
  match f with
  | FDec m e => dumps_int m ++ "e" ++ dumps_int e
  | FInf false => "Infinity"
  | FInf true => "-Infinity"
  | FNaN => "NaN"
  end.

(** [json.dumps(v)] with the default separators. *)
Fixpoint dumps (v : pyval) : string :=
  match v with
  | PyNone => "null"
  | PyBool true => "true"
  | PyBool false => "false"
  | PyInt n => dumps_int n
  | PyFloat f => dumps_float f
  | PyStr s => dumps_str s
  | PyList items =>
      "[" ++
      (fix elements (l : list pyval) : string :=
         match l with
         | [] => ""
         | x :: rest =>
             match rest with
             | [] => dumps x
             | _ :: _ => dumps x ++ ", " ++ elements rest
             end
         end) items ++ "]"
  | PyDict entries =>
      "{" ++
      (fix members (l : list (string * pyval)) : string :=
         match l with
         | [] => ""
         | (k, x) :: rest =>
             match rest with
             | [] => dumps_str k ++ ": " ++ dumps x
             | _ :: _ => dumps_str k ++ ": " ++ dumps x ++ ", " ++ members rest
             end
         end) entries ++ "}"
  end.

(** ** The session: the state captured by the callbacks *)

Inductive phase_t : Type :=
| awaiting_challenge
| awaiting_hello
| awaiting_response.

(** The [nonlocal] variables of [check_node_pairs], and what the callbacks
    asked of the transport: the texts handed to [ws.send], oldest first, and
    whether [ws.close] was called.  [error_msg] is [PyNone] until set. *)
Record session : Type := mkSession {
  phase : phase_t;
  response_received : bool;
  result : pyval;
  error_msg : pyval;
  outbox : list string;
  close_requested : bool
}.

Definition default_result : pyval :=
  PyDict [("pending", PyList []); ("paired", PyList [])].

Definition initial : session :=
  {| phase := awaiting_challenge; response_received := false;
     result := default_result; error_msg := PyNone;
     outbox := []; close_requested := false |}.

(** ** A state and exception monad for the callback bodies

    An exception leaves the assignments made before it in place. *)

Inductive outcome (A : Type) : Type :=
| Ok (a : A)
| Raise (e : exn).
Arguments Ok {A} a.
Arguments Raise {A} e.

Definition stM (S A : Type) : Type := S -> outcome A * S.

Definition ret {S A} (a : A) : stM S A := fun st => (Ok a, st).
Definition raise {S A} (e : exn) : stM S A := fun st => (Raise e, st).
Definition bind {S A B} (c : stM S A) (k : A -> stM S B) : stM S B :=
  fun st => match c st with
            | (Ok a, st') => k a st'
            | (Raise e, st') => (Raise e, st')
            end.

(** The callbacks run over the session. *)
Definition M (A : Type) : Type := stM session A.

Declare Scope py_scope.
Delimit Scope py_scope with py.
Notation "x <- c ;; k" := (bind c (fun x => k))
  (at level 61, c at next level, right associativity) : py_scope.
Notation "c ;; k" := (bind c (fun _ => k))
  (at level 61, right associativity) : py_scope.

Definition get_phase : M phase_t := fun st => (Ok (phase st), st).

Definition set_phase (p : phase_t) : M unit := fun st =>
  (Ok tt, {| phase := p; response_received := response_received st;
             result := result st; error_msg := error_msg st;
             outbox := outbox st; close_requested := close_requested st |}).

Definition set_response_received (b : bool) : M unit := fun st =>
  (Ok tt, {| phase := phase st; response_received := b;
             result := result st; error_msg := error_msg st;
             outbox := outbox st; close_requested := close_requested st |}).

Definition set_result (v : pyval) : M unit := fun st =>
  (Ok tt, {| phase := phase st; response_received := response_received st;
             result := v; error_msg := error_msg st;
             outbox := outbox st; close_requested := close_requested st |}).

Definition set_error_msg (v : pyval) : M unit := fun st =>
  (Ok tt, {| phase := phase st; response_received := response_received st;
             result := result st; error_msg := v;
             outbox := outbox st; close_requested := close_requested st |}).

(** What surrounds the handler and is not in its hands: what
    [json.loads(message)] returns or raises, and what [ws.send] and
    [ws.close] raise, if anything, when they are called while [message] is
    being handled. *)
Record runtime : Type := mkRuntime {
  json_loads_of : string -> outcome pyval;
  send_raises : string -> option exn;
  close_raises : string -> option exn
}.

(** The runtime of the reference codec: [json.loads] is [loads], its only
    failure the decode error, and the transport calls succeed. *)
Definition reference : runtime :=
  {| json_loads_of := fun message =>
       match loads message with
       | Some v => Ok v
       | None => Raise JSONDecodeError
       end;
     send_raises := fun _ => None;
     close_raises := fun _ => None |}.

(** The statement completes, or raises [fault] when there is one. *)
Definition complete (fault : option exn) (st : session) : outcome unit * session :=
  match fault with
  | Some e => (Raise e, st)
  | None => (Ok tt, st)
  end.

(** [ws.send(text)]: the text is handed to the transport, which may raise. *)
Definition ws_send (fault : option exn) (text : string) : M unit := fun st =>
  complete fault
    {| phase := phase st; response_received := response_received st;
       result := result st; error_msg := error_msg st;
       outbox := (outbox st ++ [text])%list;
       close_requested := close_requested st |}.

(** [ws.close()]: the close is asked of the transport, which may raise. *)
Definition ws_close (fault : option exn) : M unit := fun st =>
  complete fault
    {| phase := phase st; response_received := response_received st;
       result := result st; error_msg := error_msg st;
       outbox := outbox st; close_requested := true |}.

(** [json.loads(message)] as a statement. *)
Definition json_loads (rt : runtime) (message : string) : M pyval :=
  fun st => (json_loads_of rt message, st).

(** [d[k]] *)
Definition dict_item {S} (d : pydict) (k : string) : stM S pyval :=
  match dict_lookup d k with
  | Some v => ret v
  | None => raise (KeyError k)
  end.

(** [v.get(k, default)] on a value that need not be a [dict]. *)
Definition py_get {S} (v : pyval) (k : string) (default : pyval)
  : stM S pyval :=
  match v with
  | PyDict d => ret (dict_get_default d k default)
  | _ => raise (AttributeError (type_name v) "get")
  end.

(** ** The callbacks *)

Section Handshake.

Open Scope py_scope.

(** The runtime, the two identifiers drawn from [uuid.uuid4()] and the bearer
    token. *)
Variable rt : runtime.
Variables connect_id rpc_id token : string.

Definition connect_params : pyval :=
  PyDict
    [("minProtocol", PyInt 3);
     ("maxProtocol", PyInt 3);
     ("client", PyDict [("id", PyStr "check-node-pairs");
                        ("version", PyStr "1.0.0");
                        ("platform", PyStr "cli");
                        ("mode", PyStr "backend")]);
     ("role", PyStr "operator");
     ("scopes", PyList [PyStr "operator.read"; PyStr "operator.write";
                        PyStr "operator.pairing"; PyStr "operator.admin"]);
     ("caps", PyList []);
     ("auth", PyDict [("token", PyStr token)])].

Definition connect_req : pyval :=
  PyDict [("type", PyStr "req"); ("id", PyStr connect_id);
          ("method", PyStr "connect"); ("params", connect_params)].

Definition rpc_req : pyval :=
  PyDict [("type", PyStr "req"); ("id", PyStr rpc_id);
          ("method", PyStr "node.pair.list"); ("params", PyDict [])].

(** The [try] block of [on_message]. *)
Definition on_message_body_in (message : string) : M unit :=
  frame <- json_loads rt message ;;
  match frame with
  | PyDict d =>
      if negb (dict_contains d "type") then ret tt
      else
        frame_type <- dict_item d "type" ;;
        ph <- get_phase ;;
        match ph with
        | awaiting_challenge =>
            if eq_str frame_type "event"
               && eq_str (dict_get d "event") "connect.challenge"
            then set_phase awaiting_hello ;;
                 ws_send (send_raises rt message) (dumps connect_req)
            else ret tt
        | awaiting_hello =>
            if eq_str frame_type "res" && eq_str (dict_get d "id") connect_id
            then
              if truthy (dict_get d "ok")
              then set_phase awaiting_response ;;
                   ws_send (send_raises rt message) (dumps rpc_req)
              else
                m <- py_get (dict_get_default d "error" (PyDict []))
                            "message" (PyStr "Handshake failed") ;;
                set_error_msg m ;;
                ws_close (close_raises rt message)
            else ret tt
        | awaiting_response =>
            if eq_str frame_type "res" && eq_str (dict_get d "id") rpc_id
            then
              (if truthy (dict_get d "ok")
               then
                 set_result (dict_get_default d "payload" default_result) ;;
                 set_response_received true
               else
                 m <- py_get (dict_get_default d "error" (PyDict []))
                             "message" (PyStr "RPC error") ;;
                 set_error_msg m) ;;
              ws_close (close_raises rt message)
            else ret tt
        end
  | _ => ret tt
  end.

(** The exceptions of the first [except] clause. *)
Definition is_dropped (e : exn) : bool :=
  match e with
  | JSONDecodeError | KeyError _ => true
  | _ => false
  end.

(** [on_message]: the body under its two [except] clauses.  Nothing
    escapes: the result is always a session. *)
Definition on_message_in (message : string) (st : session) : session :=
  match on_message_body_in message st with
  | (Ok _, st') => st'
  | (Raise e, st') =>
      if is_dropped e then st'
      else snd (set_error_msg (PyStr (exn_str e)) st')
  end.

(** [on_error]; the error is given by its [str]. *)
Definition on_error (error : string) (st : session) : session :=
  snd (set_error_msg (PyStr error) st).

Definition on_close (st : session) : session :=
  snd (set_response_received true st).

Definition on_open (st : session) : session := st.

(** ** The transport loop and the verdict *)

(** What the channel delivers, in arrival order. *)
Inductive ws_event : Type :=
| Message (raw : string)
| Error (error : string)
| Closed.

(** [ws.run_forever]: the transport calls the handlers one at a time, in
    arrival order.  The loop ends when a handler has asked for the close,
    when the channel reports an error or its closure, or when nothing more
    arrives; [on_close] is called on the way out. *)
Fixpoint run_forever_in (events : list ws_event) (st : session) : session :=
  if close_requested st then on_close st
  else
    match events with
    | [] => on_close st
    | Message raw :: rest => run_forever_in rest (on_message_in raw st)
    | Error error :: _ => on_close (on_error error st)
    | Closed :: _ => on_close st
    end.

Inductive verdict : Type :=
| Raised (argument : pyval)
| Returned (value : pyval).

(** [check_node_pairs] after the connection is set up: run the loop from the
    initial session, then [raise Exception(error_msg)] or [return result]. *)
Definition check_node_pairs_in (events : list ws_event) : verdict :=
  let st := run_forever_in events (on_open initial) in
  if truthy (error_msg st) then Raised (error_msg st)
  else Returned (result st).

End Handshake.

(** The callbacks, the loop and the verdict in the reference runtime. *)
Definition on_message_body (connect_id rpc_id token : string)
  : string -> M unit :=
  on_message_body_in reference connect_id rpc_id token.

Definition on_message (connect_id rpc_id token : string)
  : string -> session -> session :=
  on_message_in reference connect_id rpc_id token.

Definition run_forever (connect_id rpc_id token : string)
  : list ws_event -> session -> session :=
  run_forever_in reference connect_id rpc_id token.

Definition check_node_pairs (connect_id rpc_id token : string)
  : list ws_event -> verdict :=
  check_node_pairs_in reference connect_id rpc_id token.

(** ** Result presentation: [print_result] *)

(** Printing appends to the text written so far, one entry per [print]. *)
Definition P (A : Type) : Type := stM (list string) A.

Definition print (text : string) : P unit :=
  fun out => (Ok tt, (out ++ [text])%list).

Definition esc : ascii := "027"%char.
Definition GREEN : string := String esc "[0;32m".
Definition YELLOW : string := String esc "[1;33m".
Definition NC : string := String esc "[0m".
Definition newline : string := String "010" "".

(** [for x in v]: a list gives its items, a string its characters, a
    dictionary its keys. *)
Definition py_iter (v : pyval) : P (list pyval) :=
  match v with
  | PyList items => ret items
  | PyStr s => ret (map (fun c => PyStr (String c "")) (list_ascii_of_string s))
  | PyDict d => ret (map (fun kv => PyStr (fst kv)) d)
  | _ => raise (TypeError ("'" ++ type_name v ++ "' object is not iterable"))
  end.

Fixpoint for_each (items : list pyval) (body : pyval -> P unit) : P unit :=
  match items with
  | [] => ret tt
  | x :: rest => bind (body x) (fun _ => for_each rest body)
  end.

(** [v[:20]]: a string or a list is cut; any other value raises (for a
    dictionary the exception depends on the interpreter version). *)
Definition slice20 (v : pyval) : P pyval :=
  match v with
  | PyStr s => ret (PyStr (substring 0 20 s))
  | PyList items => ret (PyList (firstn 20 items))
  | PyDict _ => raise (TypeError "unhashable type: 'slice'")
  | _ => raise (TypeError ("'" ++ type_name v ++ "' object is not subscriptable"))
  end.

Section Presentation.

Open Scope py_scope.

(** [str(v)] for the values placed in an f-string, and [format_timestamp],
    which depends on the local time zone. *)
Variable py_str : pyval -> string.
Variable format_timestamp : pyval -> outcome string.

(** An f-string field: a [str] is written as it is. *)
Definition fmt (v : pyval) : string :=
  match v with PyStr s => s | _ => py_str v end.

Definition print_timestamp (label : string) (ms : pyval) : P unit :=
  match format_timestamp ms with
  | Ok text => print (label ++ text)
  | Raise e => raise e
  end.

(** The body of the loop over the pending requests. *)
Definition print_pending_request (req : pyval) : P unit :=
  first <- py_get req "displayName" PyNone ;;
  display_name <-
    (if truthy first then ret first
     else py_get req "nodeId" (PyStr "unknown")) ;;
  print ("  - " ++ fmt display_name) ;;
  node_id <- py_get req "nodeId" (PyStr "N/A") ;;
  print ("    Node ID: " ++ fmt node_id) ;;
  request_id <- py_get req "requestId" (PyStr "N/A") ;;
  print ("    Request ID: " ++ fmt request_id) ;;
  platform <- py_get req "platform" PyNone ;;
  (if truthy platform then print ("    Platform: " ++ fmt platform)
   else ret tt) ;;
  ts <- py_get req "ts" PyNone ;;
  if truthy ts then print_timestamp "    Created: " ts else ret tt.

(** The body of the loop over the paired nodes. *)
Definition print_paired_node (node : pyval) : P unit :=
  display_name <- py_get node "displayName" (PyStr "Paired Node") ;;
  print ("  - " ++ fmt display_name) ;;
  node_id <- py_get node "nodeId" (PyStr "N/A") ;;
  print ("    Node ID: " ++ fmt node_id) ;;
  platform <- py_get node "platform" PyNone ;;
  (if truthy platform then print ("    Platform: " ++ fmt platform)
   else ret tt) ;;
  token <- py_get node "token" (PyStr "") ;;
  (if truthy token
   then shown <- slice20 token ;; print ("    Token: " ++ fmt shown ++ "...")
   else ret tt) ;;
  approved <- py_get node "approvedAtMs" PyNone ;;
  if truthy approved then print_timestamp "    Approved: " approved
  else ret tt.

Definition print_result (result : pyval) : P unit :=
  pending <- py_get result "pending" (PyList []) ;;
  paired <- py_get result "paired" (PyList []) ;;
  print (newline ++ YELLOW ++ "Pending Node Pairing Requests:" ++ NC) ;;
  (if truthy pending
   then items <- py_iter pending ;; for_each items print_pending_request
   else print "  - None") ;;
  print (newline ++ GREEN ++ "Paired Nodes:" ++ NC) ;;
  if truthy paired
  then items <- py_iter paired ;; for_each items print_paired_node
  else print "  - None".

End Presentation.

(** ** Frames as the protocol names them

    The handler works on decoded dictionaries; these predicates say which
    dictionaries are the protocol's Events and Responses. *)

Definition is_event (d : pydict) (name : string) : bool :=
  eq_str (dict_get d "type") "event" && eq_str (dict_get d "event") name.

Definition is_response (d : pydict) : bool :=
  eq_str (dict_get d "type") "res".

Definition response_id_is (d : pydict) (id : string) : bool :=
  eq_str (dict_get d "id") id.

(** The message is the connect-challenge Event. *)
Definition is_challenge (message : string) : bool :=
  match loads message with
  | Some (PyDict d) => is_event d "connect.challenge"
  | _ => false
  end.

(** The [error] field of a Response is absent or a dictionary. *)
Definition error_field_ok (d : pydict) : bool :=
  match dict_lookup d "error" with
  | None | Some (PyDict _) => true
  | Some _ => false
  end.

(** [error.message] of a Response, or [default] when there is none. *)
Definition rejection_message (d : pydict) (default : string) : pyval :=
  match dict_lookup d "error" with
  | Some (PyDict e) => dict_get_default e "message" (PyStr default)
  | _ => PyStr default
  end.

Section Shapes.

Variables connect_id rpc_id token : string.

(** The connect Request, field by field as the protocol fixes it. *)
Definition connect_request_shape : pyval :=
  PyDict
    [("type", PyStr "req"); ("id", PyStr connect_id);
     ("method", PyStr "connect");
     ("params",
      PyDict
        [("minProtocol", PyInt 3); ("maxProtocol", PyInt 3);
         ("client", PyDict [("id", PyStr "check-node-pairs");
                            ("version", PyStr "1.0.0");
                            ("platform", PyStr "cli");
                            ("mode", PyStr "backend")]);
         ("role", PyStr "operator");
         ("scopes", PyList [PyStr "operator.read"; PyStr "operator.write";
                            PyStr "operator.pairing"; PyStr "operator.admin"]);
         ("caps", PyList []);
         ("auth", PyDict [("token", PyStr token)])])].

(** The call Request: the method name and an empty parameter object. *)
Definition call_request_shape : pyval :=
  PyDict [("type", PyStr "req"); ("id", PyStr rpc_id);
          ("method", PyStr "node.pair.list"); ("params", PyDict [])].

End Shapes.

(** ** The handler in any runtime *)

(** The error left by a statement that may have raised [fault]: the text of
    the exception, unless it is one the first [except] clause drops. *)
Definition error_after (fault : option exn) (before : pyval) : pyval :=
  match fault with
  | Some e => if is_dropped e then before else PyStr (exn_str e)
  | None => before
  end.

(** What [json.loads(message)] raises, if it raises. *)
Definition loads_fault (rt : runtime) (message : string) : option exn :=
  match json_loads_of rt message with
  | Raise e => Some e
  | Ok _ => None
  end.

(** The message is the connect-challenge Event, as the runtime decodes it. *)
Definition is_challenge_in (rt : runtime) (message : string) : bool :=
  match json_loads_of rt message with
  | Ok (PyDict d) => is_event d "connect.challenge"
  | _ => false
  end.

(** Handling the message can set the error: [json.loads] raises something
    other than what is dropped, the message is a Response whose [ok] is
    false, or a transport call raises. *)
Definition message_cause (rt : runtime) (message : string) : Prop :=
  (exists e, json_loads_of rt message = Raise e /\ is_dropped e = false)
  \/ (exists d,
        json_loads_of rt message = Ok (PyDict d)
        /\ is_response d = true
        /\ truthy (dict_get d "ok") = false)
  \/ send_raises rt message <> None
  \/ close_raises rt message <> None.

(** Something among the events can have set the error. *)
Definition failure_cause_in (rt : runtime) (events : list ws_event) : Prop :=
  (exists e, In (Error e) events)
  \/ (exists m, In (Message m) events /\ message_cause rt m).

(** [json.loads] returns a value for the message or raises an exception that
    is dropped. *)
Definition decodes_or_drops (rt : runtime) (message : string) : Prop :=
  match json_loads_of rt message with
  | Raise e => is_dropped e = true
  | Ok _ => True
  end.

(** ** The integer digit limit of the interpreter

    CPython refuses to convert a decimal literal of more than 4300 digits to
    an [int] and raises [ValueError]; [json.loads] lets that exception
    through.  The limit is modelled for a document that is one integer. *)

Definition int_max_str_digits : Z := 4300.

Definition digit_limit_error (n : Z) : exn :=
  ValueError
    ("Exceeds the limit (" ++ dumps_int int_max_str_digits
       ++ " digits) for integer string conversion: value has "
       ++ dumps_int (Z.of_nat (String.length (dumps_int (Z.abs n))))
       ++ " digits; use sys.set_int_max_str_digits() to increase the limit").

Definition loads_with_int_limit (message : string) : outcome pyval :=
  match loads message with
  | Some (PyInt n) =>
      if (10 ^ int_max_str_digits <=? Z.abs n)%Z
      then Raise (digit_limit_error n)
      else Ok (PyInt n)
  | Some v => Ok v
  | None => Raise JSONDecodeError
  end.

Definition with_int_limit : runtime :=
  {| json_loads_of := loads_with_int_limit;
     send_raises := fun _ => None;
     close_raises := fun _ => None |}.

(** A runtime whose connection is lost: [ws.send] raises. *)
Definition connection_lost : runtime :=
  {| json_loads_of := json_loads_of reference;
     send_raises := fun _ => Some (OtherError "Connection is already closed.");
     close_raises := fun _ => None |}.

(** [c * n] *)
Fixpoint repeat_char (c : ascii) (n : nat) : string :=
  match n with
  | O => ""
  | S n' => String c (repeat_char c n')
  end.

(** ** Identifiers: [str(uuid.uuid4())]

    [uuid4] builds a UUID from the 16 bytes of [os.urandom], read as an
    integer [r], with the variant and the version bits overwritten; its text
    is the 32 hexadecimal digits of the integer in five groups. *)

Definition uuid4_int (r : Z) : Z :=
  let int := Z.land r (Z.lnot (Z.shiftl 0xc000 48)) in
  let int := Z.lor int (Z.shiftl 0x8000 48) in
  let int := Z.land int (Z.lnot (Z.shiftl 0xf000 64)) in
  Z.lor int (Z.shiftl 4 76).

(** The last [k] hexadecimal digits of [n], most significant first. *)
Fixpoint hex (k : nat) (n : Z) : string :=
  match k with
  | O => ""
  | S k' => hex k' (n / 16) ++ String (hex_digit (Z.to_N (n mod 16))) ""
  end.

Definition uuid_str (int : Z) : string :=
  let h := hex 32 int in
  substring 0 8 h ++ "-" ++ substring 8 4 h ++ "-" ++ substring 12 4 h
    ++ "-" ++ substring 16 4 h ++ "-" ++ substring 20 12 h.

Definition uuid4 (r : Z) : string := uuid_str (uuid4_int r).

(** The 122 bits of a draw that [uuid4] keeps. *)
Definition random_bits (r : Z) : Z :=
  Z.land r 0xffffffffffff0fff3fffffffffffffff.

(** The value of a string of hexadecimal digits, after [acc]. *)
Fixpoint unhex (acc : Z) (s : string) : Z :=
  match s with
  | EmptyString => acc
  | String c rest =>
      unhex (16 * acc
             + match hex_value c with Some d => Z.of_N d | None => 0 end) rest
  end.

(** ** The handler as a transition relation

    Every way [on_message] can take a session to the next one, named after
    the branch of the source that does it. *)

Section Transitions.

Variables connect_id rpc_id token : string.

Inductive transition (st : session) (message : string) : session -> Prop :=
| T_ignored :
    transition st message st
| T_challenge :
    phase st = awaiting_challenge ->
    is_challenge message = true ->
    transition st message
      {| phase := awaiting_hello;
         response_received := response_received st;
         result := result st; error_msg := error_msg st;
         outbox := (outbox st ++ [dumps (connect_req connect_id token)])%list;
         close_requested := close_requested st |}
| T_hello_ok (d : pydict) :
    phase st = awaiting_hello ->
    loads message = Some (PyDict d) ->
    is_response d = true ->
    response_id_is d connect_id = true ->
    truthy (dict_get d "ok") = true ->
    transition st message
      {| phase := awaiting_response;
         response_received := response_received st;
         result := result st; error_msg := error_msg st;
         outbox := (outbox st ++ [dumps (rpc_req rpc_id)])%list;
         close_requested := close_requested st |}
| T_hello_rejected (d : pydict) :
    phase st = awaiting_hello ->
    loads message = Some (PyDict d) ->
    is_response d = true ->
    response_id_is d connect_id = true ->
    truthy (dict_get d "ok") = false ->
    error_field_ok d = true ->
    transition st message
      {| phase := phase st;
         response_received := response_received st;
         result := result st;
         error_msg := rejection_message d "Handshake failed";
         outbox := outbox st;
         close_requested := true |}
| T_result (d : pydict) :
    phase st = awaiting_response ->
    loads message = Some (PyDict d) ->
    is_response d = true ->
    response_id_is d rpc_id = true ->
    truthy (dict_get d "ok") = true ->
    transition st message
      {| phase := phase st;
         response_received := true;
         result := dict_get_default d "payload" default_result;
         error_msg := error_msg st;
         outbox := outbox st;
         close_requested := true |}
| T_call_rejected (d : pydict) :
    phase st = awaiting_response ->
    loads message = Some (PyDict d) ->
    is_response d = true ->
    response_id_is d rpc_id = true ->
    truthy (dict_get d "ok") = false ->
    error_field_ok d = true ->
    transition st message
      {| phase := phase st;
         response_received := response_received st;
         result := result st;
         error_msg := rejection_message d "RPC error";
         outbox := outbox st;
         close_requested := true |}
| T_exception (d : pydict) (bad : pyval) :
    phase st <> awaiting_challenge ->
    loads message = Some (PyDict d) ->
    is_response d = true ->
    truthy (dict_get d "ok") = false ->
    dict_lookup d "error" = Some bad ->
    error_field_ok d = false ->
    transition st message
      {| phase := phase st;
         response_received := response_received st;
         result := result st;
         error_msg := PyStr (exn_str (AttributeError (type_name bad) "get"));
         outbox := outbox st;
         close_requested := close_requested st |}.

(** The requests sent so far are what the phase says: none before the
    challenge, the connect Request after it, the connect and the call Request
    after the acknowledgement. *)
Definition outbox_matches_phase (st : session) : Prop :=
  outbox st =
    match phase st with
    | awaiting_challenge => []
    | awaiting_hello => [dumps (connect_req connect_id token)]
    | awaiting_response =>
        [dumps (connect_req connect_id token); dumps (rpc_req rpc_id)]
    end.

Definition phase_rank (p : phase_t) : nat :=
  match p with
  | awaiting_challenge => 0
  | awaiting_hello => 1
  | awaiting_response => 2
  end.

(** The message is a call Response that carries [payload] and is accepted. *)
Definition delivers (message : string) (payload : pyval) : Prop :=
  exists d : pydict,
    loads message = Some (PyDict d)
    /\ is_response d = true
    /\ response_id_is d rpc_id = true
    /\ truthy (dict_get d "ok") = true
    /\ dict_lookup d "payload" = Some payload.

(** The message is the acknowledgement of the connect Request. *)
Definition acknowledges (message : string) : Prop :=
  exists d : pydict,
    loads message = Some (PyDict d)
    /\ is_response d = true
    /\ response_id_is d connect_id = true
    /\ truthy (dict_get d "ok") = true.

End Transitions.

(** ** The connection URL and [main] *)

(** [c in s] for a one-character [c] *)
Fixpoint contains_char (c : ascii) (s : string) : bool :=
  match s with
  | EmptyString => false
  | String x rest => Ascii.eqb x c || contains_char c rest
  end.

(** [s.endswith(suffix)] *)
Definition endswith (s suffix : string) : bool :=
  let n := String.length s in
  let k := String.length suffix in
  (k <=? n)%nat && (substring (n - k) k s =? suffix).

(** The URL that [check_node_pairs] opens: the token is appended as a query
    parameter. *)
Definition ws_url (gateway_url token : string) : string :=
  let separator := if contains_char "?" gateway_url then "&" else "?" in
  gateway_url ++ separator ++ "token=" ++ token.

(** The gateway URL as [main] completes it with the [/rpc] suffix. *)
Definition with_rpc_suffix (gateway_url : string) : string :=
  if endswith gateway_url "/rpc" then gateway_url
  else
    let gateway_url :=
      if endswith gateway_url "/" then gateway_url else gateway_url ++ "/" in
    gateway_url ++ "rpc".

Definition RED : string := String esc "[0;31m".
Definition BLUE : string := String esc "[0;34m".
Definition GRAY : string := String esc "[0;90m".

(** What a run of the program shows from outside: the texts printed, the
    exit status, and the URL it opened, if it opened one. *)
Record invocation : Type := mkInvocation {
  printed : list string;
  exit_status : Z;
  opened : option string
}.

Section Main.

Variable py_str : pyval -> string.
Variable format_timestamp : pyval -> outcome string.
(** The two identifiers the run draws, and what the channel opened at a URL
    delivers. *)
Variables connect_id rpc_id : string.
Variable transport : string -> list ws_event.

Definition usage (prog : string) : string :=
  newline ++ "Usage: python3 " ++ prog ++ " <GATEWAY_URL> <TOKEN>".

Definition error_line (text : string) : string :=
  newline ++ RED ++ "Error: " ++ text ++ NC.

(** [main], with [sys.argv] given as the program name and the arguments
    after it. *)
Definition main (prog : string) (args : list string) : invocation :=
  match args with
  | [] =>
      {| printed := [RED ++ "Error: GATEWAY_URL is required" ++ NC;
                     usage prog;
                     newline ++ "Example:";
                     "  python3 " ++ prog
                       ++ " ws://localhost:8080/rpc your-secret-token"];
         exit_status := 1;
         opened := None |}
  | gateway_url :: rest =>
      let token := match rest with t :: _ => t | [] => "" end in
      if negb (truthy (PyStr token))
      then {| printed := [RED ++ "Error: TOKEN is required" ++ NC; usage prog];
              exit_status := 1;
              opened := None |}
      else
        let gateway_url := with_rpc_suffix gateway_url in
        let header := [BLUE ++ "OpenClaw Gateway Node Pairing Status" ++ NC;
                       GRAY ++ "Gateway: " ++ gateway_url ++ NC] in
        let url := ws_url gateway_url token in
        match check_node_pairs connect_id rpc_id token (transport url) with
        | Raised argument =>
            {| printed := (header ++ [error_line (fmt py_str argument)])%list;
               exit_status := 1;
               opened := Some url |}
        | Returned result =>
            match print_result py_str format_timestamp result header with
            | (Ok _, out) =>
                {| printed := out; exit_status := 0; opened := Some url |}
            | (Raise e, out) =>
                {| printed := (out ++ [error_line (exn_str e)])%list;
                   exit_status := 1;
                   opened := Some url |}
            end
        end
  end.

End Main.

(** ** Listings that print without an exception *)

Section Listing.

Variable format_timestamp : pyval -> outcome string.

(** The timestamp under [key], when there is a truthy one, can be formatted. *)
Definition timestamp_ok (d : pydict) (key : string) : Prop :=
  truthy (dict_get_default d key PyNone) = true ->
  exists text, format_timestamp (dict_get_default d key PyNone) = Ok text.

(** A pending request: a dictionary whose [ts] can be formatted. *)
Definition pending_ok (req : pyval) : Prop :=
  exists d, req = PyDict d /\ timestamp_ok d "ts".

(** A paired node: a dictionary whose token, when truthy, is a string or a
    list, and whose [approvedAtMs] can be formatted. *)
Definition paired_ok (node : pyval) : Prop :=
  exists d,
    node = PyDict d
    /\ match dict_get_default d "token" (PyStr "") with
       | PyStr _ | PyList _ => True
       | v => truthy v = false
       end
    /\ timestamp_ok d "approvedAtMs".

End Listing.

(** ** Concrete sessions *)

Module Scenario.

Definition connect_id : string := "7c9e6679-7425-40de-944b-e07fc1f90ae7".
Definition rpc_id : string := "0f8fad5b-d9cb-469f-a165-70867728950e".
Definition token : string := "your-secret-token".

(** The two draws of [os.urandom] behind the identifiers. *)
Definition connect_draw : Z := 0x7c9e6679742540de944be07fc1f90ae7.
Definition rpc_draw : Z := 0x0f8fad5bd9cb469fa16570867728950e.

Definition handle : string -> session -> session :=
  on_message connect_id rpc_id token.

Definition challenge_frame : pydict :=
  [("type", PyStr "event"); ("event", PyStr "connect.challenge")].

(** A Response with the given id, [ok] and further fields. *)
Definition response_frame (id : string) (ok : bool) (fields : pydict) : pydict :=
  ([("type", PyStr "res"); ("id", PyStr id); ("ok", PyBool ok)] ++ fields)%list.

Definition wire (frame : pydict) : string := dumps (PyDict frame).

(** The session after the challenge, and after the acknowledgement. *)
Definition awaiting_ack : session := handle (wire challenge_frame) initial.
Definition awaiting_result : session :=
  handle (wire (response_frame connect_id true [])) awaiting_ack.

(** A rejection whose [error] is a bare string, one with a message, and one
    with an empty message. *)
Definition rejected_with_text : pydict :=
  response_frame connect_id false [("error", PyStr "bad token")].
Definition rejected_with_message : pydict :=
  response_frame connect_id false
                 [("error", PyDict [("message", PyStr "bad token")])].
Definition rejected_with_empty_message : pydict :=
  response_frame connect_id false [("error", PyDict [("message", PyStr "")])].

(** A call result whose payload is not a dictionary of the two lists. *)
Definition result_with_text_payload : pydict :=
  response_frame rpc_id true [("payload", PyStr "oops")].

Definition report (result : pyval) : list string :=
  snd (print_result (fun _ => "") (fun _ => Ok "") result []).

(** A call result with the empty listing, and a rejected call. *)
Definition result_with_empty_listing : pydict :=
  response_frame rpc_id true [("payload", default_result)].
Definition rejected_call : pydict :=
  response_frame rpc_id false [("error", PyDict [("message", PyStr "denied")])].

(** The program run on a channel that delivers [events]. *)
Definition run_main (events : list ws_event) : invocation :=
  main (fun _ => "") (fun _ => Ok "") connect_id rpc_id (fun _ => events)
       "check-node-pairs.py" ["ws://localhost:8080"; token].

End Scenario.


(** * Properties *)

(** ** The codec reads back what it writes *)

Lemma append_assoc (a b c : string) : (a ++ b) ++ c = a ++ (b ++ c).
Proof.
  induction a as [| x a IH]; simpl; [reflexivity | now rewrite IH].
Qed.

(** The scanner, inside a string, reads one escaped character back. *)
Lemma lex_run_escape_char (c : ascii) (acc : string) (toks : list json_token)
      (rest : string) :
  lex_run (LStr acc) toks (escape_char c ++ rest)
  = lex_run (LStr (push_char acc c)) toks rest.
Proof.
  destruct c as [b0 b1 b2 b3 b4 b5 b6 b7];
    destruct b0, b1, b2, b3, b4, b5, b6, b7; reflexivity.
Qed.

Lemma lex_run_escape (s : string) :
  forall (acc : string) (toks : list json_token) (rest : string),
    lex_run (LStr acc) toks (escape s ++ rest)
    = lex_run (LStr (acc ++ s)) toks rest.
Proof.
  induction s as [| c s IH]; intros acc toks rest.
  - simpl. replace (acc ++ "") with acc; [reflexivity |].
    induction acc as [| x acc IHacc]; simpl; [reflexivity | now rewrite <- IHacc].
  - simpl escape. rewrite append_assoc, lex_run_escape_char, IH.
    unfold push_char. now rewrite append_assoc.
Qed.

(** Run the scanner over a serialised value whose strings are symbolic. *)
Ltac read_back :=
  unfold loads; cbn;
  repeat (rewrite ?append_assoc; rewrite lex_run_escape; cbn);
  reflexivity.

Lemma loads_connect_req (connect_id token : string) :
  loads (dumps (connect_req connect_id token))
  = Some (connect_req connect_id token).
Proof. unfold connect_req, connect_params. read_back. Qed.

Lemma loads_rpc_req (rpc_id : string) :
  loads (dumps (rpc_req rpc_id)) = Some (rpc_req rpc_id).
Proof. unfold rpc_req. read_back. Qed.


Lemma eq_str_true (v : pyval) (s : string) :
  eq_str v s = true -> v = PyStr s.
Proof.
  destruct v; simpl; try discriminate.
  intros H. apply String.eqb_eq in H. now subst.
Qed.

Lemma eq_str_type (d : pydict) (s : string) :
  eq_str (dict_get d "type") s = true ->
  dict_lookup d "type" = Some (PyStr s).
Proof.
  unfold dict_get. intros H.
  destruct (dict_lookup d "type") as [v |]; [| discriminate].
  now rewrite (eq_str_true _ _ H).
Qed.

(** Unfold the handler on a message that decodes as [Hloads] says. *)
Ltac run_handler Hloads :=
  unfold on_message, on_message_body, on_message_in, on_message_body_in,
    json_loads, reference, dict_item, dict_contains, bind, ret, raise,
    get_phase;
  cbn [json_loads_of send_raises close_raises];
  rewrite Hloads; cbn.

(** One turn of the loop of the reference runtime. *)
Ltac loop_step c r t :=
  unfold run_forever; cbn [run_forever_in];
  change (run_forever_in reference c r t) with (run_forever c r t);
  change (on_message_in reference c r t) with (on_message c r t).

Ltac loop_step_in c r t H :=
  unfold run_forever in H; cbn [run_forever_in] in H;
  change (run_forever_in reference c r t) with (run_forever c r t) in H;
  change (on_message_in reference c r t) with (on_message c r t) in H.

(** The verdict of the reference runtime, in terms of its loop. *)
Ltac open_verdict c r t :=
  unfold check_node_pairs, check_node_pairs_in, on_open; cbv zeta;
  change (run_forever_in reference c r t) with (run_forever c r t).

(** A run of the body that cannot have raised, or whose session at the raise
    is at hand. *)
Ltac same_pair :=
  let H := fresh in
  intros H;
  first [discriminate H
        | injection H; intros; subst; split; intros;
          first [reflexivity | discriminate]].

Section Handler.

Variables connect_id rpc_id token : string.

(** What the handler does with any message while awaiting the challenge. *)
Lemma on_message_awaiting_challenge (message : string) (st : session) :
  phase st = awaiting_challenge ->
  on_message connect_id rpc_id token message st =
    if is_challenge message
    then {| phase := awaiting_hello;
            response_received := response_received st;
            result := result st;
            error_msg := error_msg st;
            outbox := (outbox st ++ [dumps (connect_request_shape connect_id token)])%list;
            close_requested := close_requested st |}
    else st.
Proof.
  intros Hphase. unfold is_challenge, is_event.
  destruct (loads message) as [v |] eqn:Hloads.
  - destruct v; try (run_handler Hloads; reflexivity).
    run_handler Hloads. unfold dict_get.
    destruct (dict_lookup entries "type") as [ft |]; cbn; [| reflexivity].
    rewrite Hphase.
    destruct (eq_str ft "event" && _); reflexivity.
  - run_handler Hloads. reflexivity.
Qed.



(** C2.  A Response whose id is not the one outstanding in the current phase
    (the connect id while awaiting the acknowledgement, the call id while
    awaiting the call result) leaves the whole session unchanged: phase,
    result, error, and nothing is sent. *)
Theorem C2_uncorrelated_response_ignored
        (message : string) (st : session) (d : pydict) :
  loads message = Some (PyDict d) ->
  is_response d = true ->
  (phase st = awaiting_hello -> response_id_is d connect_id = false) ->
  (phase st = awaiting_response -> response_id_is d rpc_id = false) ->
  on_message connect_id rpc_id token message st = st.
Proof.
  unfold is_response, response_id_is.
  intros Hloads Hres Hhello Hresp.
  run_handler Hloads. rewrite (eq_str_type _ _ Hres). cbn.
  destruct (phase st) eqn:Hphase; cbn.
  - reflexivity.
  - now rewrite Hhello.
  - now rewrite Hresp.
Qed.



(** Once a handler has asked for the close, the loop calls no handler but
    [on_close], whatever is still to arrive. *)
Lemma run_forever_after_close (events : list ws_event) (st : session) :
  close_requested st = true ->
  run_forever connect_id rpc_id token events st = on_close st.
Proof.
  intros H. destruct events; simpl; now rewrite H.
Qed.

(** C4, for a well-formed error field.  While awaiting the connect acknowledgement, a
    Response with the connect id, an [ok] that is false and an [error] field
    that is absent or a dictionary records [error.message] (or the text
    Handshake failed when there is none) and asks for the close; nothing is
    sent, and the loop sends nothing afterwards whatever arrives. *)
Theorem C4_connect_rejection
        (message : string) (st : session) (d : pydict)
        (later : list ws_event) :
  phase st = awaiting_hello ->
  loads message = Some (PyDict d) ->
  is_response d = true ->
  response_id_is d connect_id = true ->
  truthy (dict_get d "ok") = false ->
  error_field_ok d = true ->
  on_message connect_id rpc_id token message st =
    {| phase := awaiting_hello;
       response_received := response_received st;
       result := result st;
       error_msg := rejection_message d "Handshake failed";
       outbox := outbox st;
       close_requested := true |}
  /\ outbox (run_forever connect_id rpc_id token later
               (on_message connect_id rpc_id token message st))
     = outbox st.
Proof.
  unfold is_response, response_id_is, error_field_ok, rejection_message.
  intros Hphase Hloads Hres Hid Hok Herr.
  assert (Hstep : on_message connect_id rpc_id token message st =
    {| phase := awaiting_hello;
       response_received := response_received st;
       result := result st;
       error_msg := rejection_message d "Handshake failed";
       outbox := outbox st;
       close_requested := true |}).
  { destruct st as [ph rr res em ob cr]; simpl in Hphase; subst ph.
    run_handler Hloads. rewrite (eq_str_type _ _ Hres). cbn.
    rewrite Hid, Hok. unfold rejection_message, dict_get_default.
    destruct (dict_lookup d "error") as [v |]; [| reflexivity].
    destruct v; try discriminate. reflexivity. }
  split; [exact Hstep |].
  rewrite run_forever_after_close; rewrite Hstep; reflexivity.
Qed.

(** While awaiting the call result, a Response with the call id and a true
    [ok] asks for the close and marks the response as received; the result
    becomes the [payload] of the Response whenever that key is present,
    whatever its value, and the two-empty-list default when it is absent. *)
Lemma on_message_call_result
        (message : string) (st : session) (d : pydict) :
  phase st = awaiting_response ->
  loads message = Some (PyDict d) ->
  is_response d = true ->
  response_id_is d rpc_id = true ->
  truthy (dict_get d "ok") = true ->
  on_message connect_id rpc_id token message st =
    {| phase := awaiting_response;
       response_received := true;
       result := match dict_lookup d "payload" with
                 | Some payload => payload
                 | None => PyDict [("pending", PyList []); ("paired", PyList [])]
                 end;
       error_msg := error_msg st;
       outbox := outbox st;
       close_requested := true |}.
Proof.
  unfold is_response, response_id_is.
  intros Hphase Hloads Hres Hid Hok.
  destruct st as [ph rr res em ob cr]; simpl in Hphase; subst ph.
  run_handler Hloads. rewrite (eq_str_type _ _ Hres). cbn.
  rewrite Hid, Hok. reflexivity.
Qed.


(** C7.  The connect Request that the handler sends on the challenge reads
    back through the codec as an envelope of type req with the connect id,
    the method connect and the very parameter object that was serialised. *)
Theorem C7_connect_request_round_trip (message : string) (st : session) :
  phase st = awaiting_challenge ->
  is_challenge message = true ->
  exists (text : string) (envelope : pydict),
    outbox (on_message connect_id rpc_id token message st)
    = (outbox st ++ [text])%list
    /\ text = dumps (connect_req connect_id token)
    /\ loads text = Some (PyDict envelope)
    /\ dict_get envelope "type" = PyStr "req"
    /\ dict_get envelope "id" = PyStr connect_id
    /\ dict_get envelope "method" = PyStr "connect"
    /\ dict_get envelope "params" = connect_params token.
Proof.
  intros Hphase Hchallenge.
  rewrite (on_message_awaiting_challenge message st Hphase), Hchallenge.
  eexists. eexists. split; [reflexivity |]. split; [reflexivity |].
  split; [apply loads_connect_req |]. repeat split.
Qed.

End Handler.

(** ** Identifiers *)

Lemma length_snoc (a : string) (c : ascii) :
  String.length (a ++ String c "") = S (String.length a).
Proof. induction a as [| x a IH]; simpl; [reflexivity | now rewrite IH]. Qed.

Lemma hex_length (k : nat) : forall n, String.length (hex k n) = k.
Proof.
  induction k as [| k IH]; intros n; simpl; [reflexivity |].
  now rewrite length_snoc, IH.
Qed.

Lemma hex_value_digit (d : Z) :
  (0 <= d < 16)%Z ->
  hex_value (hex_digit (Z.to_N d)) = Some (Z.to_N d).
Proof.
  intros H.
  assert (Hd : (d = 0 \/ d = 1 \/ d = 2 \/ d = 3 \/ d = 4 \/ d = 5 \/ d = 6
                \/ d = 7 \/ d = 8 \/ d = 9 \/ d = 10 \/ d = 11 \/ d = 12
                \/ d = 13 \/ d = 14 \/ d = 15)%Z) by lia.
  repeat (destruct Hd as [-> | Hd]; [reflexivity |]). subst. reflexivity.
Qed.

Lemma unhex_app (a b : string) : forall acc, unhex acc (a ++ b) = unhex (unhex acc a) b.
Proof. induction a as [| c a IH]; intros acc; simpl; [reflexivity | apply IH]. Qed.

Lemma unhex_hex (k : nat) :
  forall n acc, unhex acc (hex k n) = (acc * 16 ^ Z.of_nat k + n mod 16 ^ Z.of_nat k)%Z.
Proof.
  induction k as [| k IH]; intros n acc.
  - simpl. rewrite Z.mod_1_r. lia.
  - cbn [hex]. rewrite unhex_app, IH. cbn [unhex].
    rewrite hex_value_digit by (apply Z.mod_pos_bound; lia).
    rewrite Z2N.id by (apply Z.mod_pos_bound; lia).
    rewrite Nat2Z.inj_succ, Z.pow_succ_r by lia.
    rewrite (Z.rem_mul_r n 16 (16 ^ Z.of_nat k)) by lia.
    lia.
Qed.

Lemma hex_inj (k : nat) (n m : Z) :
  hex k n = hex k m -> (n mod 16 ^ Z.of_nat k = m mod 16 ^ Z.of_nat k)%Z.
Proof.
  intros H.
  pose proof (unhex_hex k n 0) as Hn. pose proof (unhex_hex k m 0) as Hm.
  rewrite H in Hn. lia.
Qed.

(** A string of 32 characters is its five groups put together, so the text of
    a UUID determines its digits. *)
Lemma uuid_str_inj (n m : Z) : uuid_str n = uuid_str m -> hex 32 n = hex 32 m.
Proof.
  unfold uuid_str.
  pose proof (hex_length 32 n) as Hn. pose proof (hex_length 32 m) as Hm.
  destruct (hex 32 n) as [| a0 h]; [discriminate |].
  destruct (hex 32 m) as [| b0 g]; [discriminate |].
  do 31 (destruct h as [| ? h]; [discriminate |]).
  do 31 (destruct g as [| ? g]; [discriminate |]).
  destruct h; [| discriminate]. destruct g; [| discriminate].
  cbn. intros H. injection H. intros. subst. reflexivity.
Qed.

Lemma random_bits_uuid4_int (r : Z) : random_bits (uuid4_int r) = random_bits r.
Proof.
  unfold random_bits, uuid4_int. cbv zeta.
  rewrite Z.land_lor_distr_l.
  replace (Z.land (Z.shiftl 4 76) 0xffffffffffff0fff3fffffffffffffff) with 0%Z
    by reflexivity.
  rewrite Z.lor_0_r, <- Z.land_assoc.
  replace (Z.land (Z.lnot (Z.shiftl 0xf000 64)) 0xffffffffffff0fff3fffffffffffffff)
    with 0xffffffffffff0fff3fffffffffffffff%Z by reflexivity.
  rewrite Z.land_lor_distr_l.
  replace (Z.land (Z.shiftl 0x8000 48) 0xffffffffffff0fff3fffffffffffffff) with 0%Z
    by reflexivity.
  rewrite Z.lor_0_r, <- Z.land_assoc.
  replace (Z.land (Z.lnot (Z.shiftl 0xc000 48)) 0xffffffffffff0fff3fffffffffffffff)
    with 0xffffffffffff0fff3fffffffffffffff%Z by reflexivity.
  reflexivity.
Qed.

Lemma random_bits_mod (n : Z) : random_bits (n mod 2 ^ 128) = random_bits n.
Proof.
  unfold random_bits.
  rewrite <- (Z.land_ones n 128) by lia.
  rewrite <- Z.land_assoc. reflexivity.
Qed.

(** Two draws that differ in a bit that [uuid4] keeps give different
    identifiers. *)
Lemma uuid4_distinct (r1 r2 : Z) :
  random_bits r1 <> random_bits r2 -> uuid4 r1 <> uuid4 r2.
Proof.
  intros Hbits Heq. apply Hbits.
  unfold uuid4 in Heq.
  pose proof (hex_inj 32 _ _ (uuid_str_inj _ _ Heq)) as Hmod.
  replace (16 ^ Z.of_nat 32)%Z with (2 ^ 128)%Z in Hmod by reflexivity.
  rewrite <- (random_bits_uuid4_int r1), <- (random_bits_uuid4_int r2).
  rewrite <- (random_bits_mod (uuid4_int r1)), <- (random_bits_mod (uuid4_int r2)).
  now rewrite Hmod.
Qed.

(** ** The handler in any runtime *)

(** Unfold the handler in a runtime [rt]. *)
Ltac run_in :=
  unfold on_message_in, on_message_body_in, json_loads, dict_item,
    dict_contains, bind, ret, raise, get_phase, py_get, ws_send, ws_close,
    complete, set_phase, set_result, set_error_msg, set_response_received.

Section AnyRuntime.

Variable rt : runtime.
Variables connect_id rpc_id token : string.

(** What the handler does with any message while awaiting the challenge,
    whatever [json.loads] and [ws.send] do. *)
Lemma on_message_in_awaiting_challenge (message : string) (st : session) :
  phase st = awaiting_challenge ->
  on_message_in rt connect_id rpc_id token message st =
    if is_challenge_in rt message
    then {| phase := awaiting_hello;
            response_received := response_received st;
            result := result st;
            error_msg := error_after (send_raises rt message) (error_msg st);
            outbox := (outbox st
                       ++ [dumps (connect_request_shape connect_id token)])%list;
            close_requested := close_requested st |}
    else {| phase := awaiting_challenge;
            response_received := response_received st;
            result := result st;
            error_msg := error_after (loads_fault rt message) (error_msg st);
            outbox := outbox st;
            close_requested := close_requested st |}.
Proof.
  intros Hphase.
  destruct st as [ph rr res em ob cr]; simpl in Hphase; subst ph.
  unfold is_challenge_in, loads_fault, is_event, error_after. run_in.
  destruct (json_loads_of rt message) as [v | e]; cbn.
  - destruct v; cbn; try reflexivity.
    unfold dict_get.
    destruct (dict_lookup entries "type") as [ft |]; cbn; [| reflexivity].
    destruct (eq_str ft "event" && _); cbn; [| reflexivity].
    destruct (send_raises rt message) as [e |]; cbn; [| reflexivity].
    destruct (is_dropped e); reflexivity.
  - destruct (is_dropped e); reflexivity.
Qed.

(** C1.  While awaiting the challenge, the connect-challenge Event makes the
    handler hand exactly one connect Request of the fixed shape, carrying the
    token, to [ws.send] and move to awaiting the connect acknowledgement;
    every other message sends nothing and leaves the phase, the result and
    the close flag as they were.  This holds whatever [json.loads] returns or
    raises and whether or not [ws.send] raises: an exception only leaves its
    text in the error. *)
Theorem C1_challenge_starts_handshake (message : string) (st : session) :
  phase st = awaiting_challenge ->
  on_message_in rt connect_id rpc_id token message st =
    if is_challenge_in rt message
    then {| phase := awaiting_hello;
            response_received := response_received st;
            result := result st;
            error_msg := error_after (send_raises rt message) (error_msg st);
            outbox := (outbox st
                       ++ [dumps (connect_request_shape connect_id token)])%list;
            close_requested := close_requested st |}
    else {| phase := awaiting_challenge;
            response_received := response_received st;
            result := result st;
            error_msg := error_after (loads_fault rt message) (error_msg st);
            outbox := outbox st;
            close_requested := close_requested st |}.
Proof. exact (on_message_in_awaiting_challenge message st). Qed.

(** C6, for the decode error.  A message on which [json.loads] raises the
    decode error, or that decodes to something other than a dictionary, or to
    a dictionary without a [type] key, is dropped in every phase: the handler
    returns the session it was given (same phase, result and error, nothing
    sent), and nothing is raised to the caller. *)
Theorem C6_malformed_message_dropped (message : string) (st : session) :
  match json_loads_of rt message with
  | Raise e => e = JSONDecodeError
  | Ok (PyDict d) => dict_contains d "type" = false
  | Ok _ => True
  end ->
  on_message_in rt connect_id rpc_id token message st = st
  /\ on_message_body_in rt connect_id rpc_id token message st
     = (match json_loads_of rt message with
        | Raise e => Raise e
        | Ok _ => Ok tt
        end, st).
Proof.
  intros H. run_in.
  destruct (json_loads_of rt message) as [v | e]; cbn.
  - destruct v; cbn; try (split; reflexivity).
    unfold dict_contains in H.
    destruct (dict_lookup entries "type"); [discriminate | split; reflexivity].
  - subst e. split; reflexivity.
Qed.

(** The body run in full: where an exception, if any, comes from and what
    was assigned before it. *)
Lemma on_message_body_in_raises (message : string) (st st' : session) (e : exn) :
  on_message_body_in rt connect_id rpc_id token message st = (Raise e, st') ->
  (close_raises rt message = None -> close_requested st' = close_requested st)
  /\ (send_raises rt message = None -> close_raises rt message = None ->
      st' = st).
Proof.
  run_in.
  destruct (json_loads_of rt message) as [v | e0]; cbn; [| same_pair].
  destruct v; cbn; try same_pair.
  destruct (dict_lookup entries "type") as [ft |]; cbn; [| same_pair].
  destruct (phase st); cbn.
  - destruct (eq_str ft "event" && _); cbn; [| same_pair].
    destruct (send_raises rt message); cbn; same_pair.
  - destruct (eq_str ft "res" && _); cbn; [| same_pair].
    destruct (truthy _); cbn.
    + destruct (send_raises rt message); cbn; same_pair.
    + destruct (dict_get_default entries "error" (PyDict []));
        cbn; try same_pair;
        destruct (close_raises rt message); cbn; same_pair.
  - destruct (eq_str ft "res" && _); cbn; [| same_pair].
    destruct (truthy _); cbn.
    + destruct (close_raises rt message); cbn; same_pair.
    + destruct (dict_get_default entries "error" (PyDict []));
        cbn; try same_pair;
        destruct (close_raises rt message); cbn; same_pair.
Qed.

(** C8, without the forced termination.  When the body of the handler raises
    an exception outside the drop rules, the handler does not raise: it
    returns the session as the body had left it, with the text of the
    exception as the error.  The close is not asked for on account of the
    exception: unless [ws.close] is the call that raised, the close flag is
    as it was before the message, and when no transport call raised nothing
    but the error has changed. *)
Theorem C8_unexpected_exception_recorded
        (message : string) (st st' : session) (e : exn) :
  on_message_body_in rt connect_id rpc_id token message st = (Raise e, st') ->
  is_dropped e = false ->
  on_message_in rt connect_id rpc_id token message st =
    {| phase := phase st';
       response_received := response_received st';
       result := result st';
       error_msg := PyStr (exn_str e);
       outbox := outbox st';
       close_requested := close_requested st' |}
  /\ (close_raises rt message = None ->
      close_requested (on_message_in rt connect_id rpc_id token message st)
      = close_requested st)
  /\ (send_raises rt message = None -> close_raises rt message = None ->
      st' = st).
Proof.
  intros Hbody Hdrop.
  destruct (on_message_body_in_raises message st st' e Hbody)
    as [Hclose Hsame].
  assert (Hstep : on_message_in rt connect_id rpc_id token message st =
    {| phase := phase st';
       response_received := response_received st';
       result := result st';
       error_msg := PyStr (exn_str e);
       outbox := outbox st';
       close_requested := close_requested st' |}).
  { unfold on_message_in. rewrite Hbody, Hdrop. reflexivity. }
  split; [exact Hstep |]. split; [| exact Hsame].
  intros Hnone. rewrite Hstep. cbn. now apply Hclose.
Qed.

(** What the handler does with a true acknowledgement of the connect
    Request, whatever [ws.send] does. *)
Lemma on_message_in_acknowledged (message : string) (st : session) (d : pydict) :
  phase st = awaiting_hello ->
  json_loads_of rt message = Ok (PyDict d) ->
  is_response d = true ->
  response_id_is d connect_id = true ->
  truthy (dict_get d "ok") = true ->
  on_message_in rt connect_id rpc_id token message st =
    {| phase := awaiting_response;
       response_received := response_received st;
       result := result st;
       error_msg := error_after (send_raises rt message) (error_msg st);
       outbox := (outbox st ++ [dumps (call_request_shape rpc_id)])%list;
       close_requested := close_requested st |}.
Proof.
  unfold is_response, response_id_is, error_after.
  intros Hphase Hloads Hres Hid Hok.
  destruct st as [ph rr res em ob cr]; simpl in Hphase; subst ph.
  run_in. rewrite Hloads. cbn. rewrite (eq_str_type _ _ Hres). cbn.
  rewrite Hid, Hok. cbn.
  destruct (send_raises rt message) as [e |]; cbn; [| reflexivity].
  destruct (is_dropped e); reflexivity.
Qed.

End AnyRuntime.

(** C3, for two draws that differ.  While awaiting the connect
    acknowledgement, a Response with the connect id and a true [ok] moves the
    session to awaiting the call result and hands exactly one call Request
    (method name and empty parameters) to [ws.send], under the identifier of
    the second [uuid4] draw.  When the two draws differ in a bit that [uuid4]
    keeps, that identifier differs from the connect id, and the call Request
    read back does not correlate with it. *)
Theorem C3_connect_ack_sends_call
        (rt : runtime) (r1 r2 : Z) (token message : string)
        (st : session) (d : pydict) :
  random_bits r1 <> random_bits r2 ->
  phase st = awaiting_hello ->
  json_loads_of rt message = Ok (PyDict d) ->
  is_response d = true ->
  response_id_is d (uuid4 r1) = true ->
  truthy (dict_get d "ok") = true ->
  on_message_in rt (uuid4 r1) (uuid4 r2) token message st =
    {| phase := awaiting_response;
       response_received := response_received st;
       result := result st;
       error_msg := error_after (send_raises rt message) (error_msg st);
       outbox := (outbox st ++ [dumps (call_request_shape (uuid4 r2))])%list;
       close_requested := close_requested st |}
  /\ uuid4 r2 <> uuid4 r1
  /\ (exists call : pydict,
         loads (dumps (call_request_shape (uuid4 r2))) = Some (PyDict call)
         /\ dict_get call "method" = PyStr "node.pair.list"
         /\ dict_get call "params" = PyDict []
         /\ dict_get call "id" = PyStr (uuid4 r2)
         /\ response_id_is call (uuid4 r1) = false).
Proof.
  intros Hbits Hphase Hloads Hres Hid Hok.
  assert (Hfresh : uuid4 r2 <> uuid4 r1).
  { intros Heq. now apply (uuid4_distinct r1 r2 Hbits). }
  split; [now apply on_message_in_acknowledged with (d := d) |].
  split; [exact Hfresh |].
  eexists. split; [apply loads_rpc_req |].
  repeat split. unfold response_id_is. cbn -[uuid4 String.eqb].
  now apply String.eqb_neq.
Qed.

(** ** The paired-node report *)


Lemma substring_whole (n : nat) :
  forall s : string, String.length s <= n -> substring 0 n s = s.
Proof.
  induction n as [| n IH]; intros [| c s]; simpl; intros H;
    try reflexivity; try lia.
  rewrite IH; [reflexivity | lia].
Qed.

Section Report.

Variable py_str : pyval -> string.
Variable format_timestamp : pyval -> outcome string.


End Report.

(** ** The theorems at concrete sessions *)

Import Scenario.

Lemma C1_witness :
  handle (wire challenge_frame) initial =
    {| phase := awaiting_hello; response_received := false;
       result := default_result; error_msg := PyNone;
       outbox := [dumps (connect_request_shape connect_id token)];
       close_requested := false |}.
Proof.
  unfold handle, on_message.
  rewrite (C1_challenge_starts_handshake reference connect_id rpc_id token
             (wire challenge_frame) initial); reflexivity.
Defined.

Lemma C2_witness :
  handle (wire (response_frame rpc_id true [])) awaiting_ack = awaiting_ack.
Proof.
  apply (C2_uncorrelated_response_ignored connect_id rpc_id token
           (wire (response_frame rpc_id true [])) awaiting_ack
           (response_frame rpc_id true []));
    first [reflexivity | discriminate].
Defined.

Lemma C3_witness :
  phase awaiting_result = awaiting_response
  /\ outbox awaiting_result
     = [dumps (connect_request_shape connect_id token);
        dumps (call_request_shape rpc_id)]
  /\ uuid4 rpc_draw <> uuid4 connect_draw.
Proof.
  assert (Hbits : random_bits connect_draw <> random_bits rpc_draw)
    by (vm_compute; discriminate).
  assert (Hloads : json_loads_of reference
                     (wire (response_frame connect_id true []))
                   = Ok (PyDict (response_frame connect_id true [])))
    by (vm_compute; reflexivity).
  assert (Hid : response_id_is (response_frame connect_id true [])
                               (uuid4 connect_draw) = true)
    by (vm_compute; reflexivity).
  destruct (C3_connect_ack_sends_call reference connect_draw rpc_draw token
              (wire (response_frame connect_id true [])) awaiting_ack
              (response_frame connect_id true [])
              Hbits eq_refl Hloads eq_refl Hid eq_refl)
    as (Hstep & Hfresh & _).
  split; [exact (f_equal phase Hstep
                 <: phase awaiting_result = awaiting_response) |].
  split; [| exact Hfresh].
  exact (f_equal outbox Hstep
         <: outbox awaiting_result
            = [dumps (connect_request_shape connect_id token);
               dumps (call_request_shape rpc_id)]).
Defined.

Lemma C4_witness :
  error_msg (handle (wire rejected_with_message) awaiting_ack)
  = PyStr "bad token"
  /\ close_requested (handle (wire rejected_with_message) awaiting_ack) = true
  /\ outbox (run_forever connect_id rpc_id token
               [Message (wire (response_frame connect_id true []))]
               (handle (wire rejected_with_message) awaiting_ack))
     = outbox awaiting_ack.
Proof.
  destruct (C4_connect_rejection connect_id rpc_id token
              (wire rejected_with_message) awaiting_ack rejected_with_message
              [Message (wire (response_frame connect_id true []))])
    as [Hstep Hlater]; try reflexivity.
  unfold handle. rewrite Hlater, Hstep. repeat split.
Defined.


Lemma C6_witness :
  handle "{not json" awaiting_ack = awaiting_ack
  /\ handle (wire [("event", PyStr "connect.challenge")]) initial = initial.
Proof.
  split.
  - apply (C6_malformed_message_dropped reference connect_id rpc_id token
             "{not json" awaiting_ack). reflexivity.
  - apply (C6_malformed_message_dropped reference connect_id rpc_id token
             (wire [("event", PyStr "connect.challenge")]) initial).
    reflexivity.
Defined.

Lemma C7_witness :
  exists envelope : pydict,
    loads (dumps (connect_req connect_id token)) = Some (PyDict envelope)
    /\ dict_get envelope "params" = connect_params token.
Proof.
  destruct (C7_connect_request_round_trip connect_id rpc_id token
              (wire challenge_frame) initial)
    as (text & envelope & _ & Htext & Hloads & _ & _ & _ & Hparams);
    try reflexivity.
  exists envelope. rewrite <- Htext. split; assumption.
Defined.

Lemma C8_witness :
  on_message_in connection_lost connect_id rpc_id token
                (wire challenge_frame) initial =
    {| phase := awaiting_hello; response_received := false;
       result := default_result;
       error_msg := PyStr "Connection is already closed.";
       outbox := [dumps (connect_request_shape connect_id token)];
       close_requested := false |}.
Proof.
  destruct (C8_unexpected_exception_recorded connection_lost
              connect_id rpc_id token (wire challenge_frame) initial
              {| phase := awaiting_hello; response_received := false;
                 result := default_result; error_msg := PyNone;
                 outbox := [dumps (connect_request_shape connect_id token)];
                 close_requested := false |}
              (OtherError "Connection is already closed."))
    as [Hstep _]; [reflexivity | reflexivity | exact Hstep].
Defined.


(** C4 does not hold for every Response: a Response with the connect id and [ok] false
    whose [error] is a bare string makes the handler record the text of an
    attribute error instead of the default message, the close is not asked
    for, and the acknowledgement that follows still has the call Request
    sent. *)
Lemma C4_counterexample :
  phase awaiting_ack = awaiting_hello
  /\ loads (wire rejected_with_text) = Some (PyDict rejected_with_text)
  /\ is_response rejected_with_text = true
  /\ response_id_is rejected_with_text connect_id = true
  /\ dict_get rejected_with_text "ok" = PyBool false
  /\ error_msg (handle (wire rejected_with_text) awaiting_ack)
     = PyStr "'str' object has no attribute 'get'"
  /\ close_requested (handle (wire rejected_with_text) awaiting_ack) = false
  /\ outbox (run_forever connect_id rpc_id token
               [Message (wire (response_frame connect_id true []))]
               (handle (wire rejected_with_text) awaiting_ack))
     = [dumps (connect_request_shape connect_id token);
        dumps (call_request_shape rpc_id)].
Proof. vm_compute. repeat split. Qed.

(** C5.  A call result whose payload is a string, not a dictionary of the
    two lists, is adopted as the result: the operation returns the string
    where its documentation promises a dictionary with the pending and the
    paired list. *)
Theorem C5_malformed_payload_returned :
  let events := [Message (wire challenge_frame);
                 Message (wire (response_frame connect_id true []));
                 Message (wire result_with_text_payload)] in
  loads (wire result_with_text_payload) = Some (PyDict result_with_text_payload)
  /\ is_response result_with_text_payload = true
  /\ response_id_is result_with_text_payload rpc_id = true
  /\ dict_get result_with_text_payload "ok" = PyBool true
  /\ dict_get result_with_text_payload "payload" = PyStr "oops"
  /\ check_node_pairs connect_id rpc_id token events = Returned (PyStr "oops").
Proof. vm_compute. repeat split. Qed.

(** C3 does not hold for every two draws: when [os.urandom] gives the same
    sixteen bytes twice, the call Request goes out under the connect id and,
    read back, correlates with it. *)
Lemma C3_counterexample :
  let id := uuid4 connect_draw in
  outbox (on_message_in reference id id token
            (wire (response_frame id true [])) awaiting_ack)
  = [dumps (connect_request_shape connect_id token);
     dumps (call_request_shape id)]
  /\ loads (dumps (call_request_shape id))
     = Some (PyDict [("type", PyStr "req"); ("id", PyStr id);
                     ("method", PyStr "node.pair.list"); ("params", PyDict [])])
  /\ response_id_is [("type", PyStr "req"); ("id", PyStr id);
                     ("method", PyStr "node.pair.list"); ("params", PyDict [])]
                    id = true.
Proof. vm_compute. repeat split. Qed.

(** C6 does not hold for every message that is not a mapping: a document of
    4301 digits is a valid integer, yet [json.loads] raises the digit-limit
    error on it, which the handler records as the error of the session. *)
Lemma C6_counterexample :
  (exists n, loads (repeat_char "1" 4301) = Some (PyInt n))
  /\ error_msg initial = PyNone
  /\ error_msg (on_message_in with_int_limit connect_id rpc_id token
                  (repeat_char "1" 4301) initial)
     = PyStr ("Exceeds the limit (4300 digits) for integer string conversion: "
              ++ "value has 4301 digits; "
              ++ "use sys.set_int_max_str_digits() to increase the limit").
Proof.
  split; [eexists; vm_compute; reflexivity |].
  split; [reflexivity | vm_compute; reflexivity].
Qed.

(** C8 does not hold as a forced termination: the attribute error raised while handling a
    rejection whose [error] is a bare string is recorded, but the session is
    not brought to the state a rejection brings it to: the close is not asked
    for, and the next acknowledgement is handled and moves the phase on. *)
Lemma C8_counterexample :
  fst (on_message_body connect_id rpc_id token (wire rejected_with_text)
         awaiting_ack)
  = Raise (AttributeError "str" "get")
  /\ close_requested (handle (wire rejected_with_text) awaiting_ack) = false
  /\ close_requested (handle (wire rejected_with_message) awaiting_ack) = true
  /\ phase (handle (wire (response_frame connect_id true []))
              (handle (wire rejected_with_text) awaiting_ack))
     = awaiting_response.
Proof. vm_compute. repeat split. Qed.


(** The verdict follows the truth value of the error. *)
Lemma check_node_pairs_verdict (cid rid tok : string) (events : list ws_event) :
  check_node_pairs cid rid tok events =
    let st := run_forever cid rid tok events initial in
    if truthy (error_msg st) then Raised (error_msg st)
    else Returned (result st).
Proof. reflexivity. Qed.

(** Whenever the error left by the session is truthy, the operation raises
    it, whatever result was adopted. *)
Lemma error_takes_precedence (cid rid tok : string) (events : list ws_event) :
  truthy (error_msg (run_forever cid rid tok events initial)) = true ->
  check_node_pairs cid rid tok events
  = Raised (error_msg (run_forever cid rid tok events initial)).
Proof.
  intros H. rewrite check_node_pairs_verdict. cbv zeta. now rewrite H.
Qed.

(** An attribute error recorded during the handshake is raised at the end
    although the call result that followed was adopted. *)
Example error_beats_adopted_result :
  let events := [Message (wire challenge_frame);
                 Message (wire rejected_with_text);
                 Message (wire (response_frame connect_id true []));
                 Message (wire result_with_text_payload)] in
  result (run_forever connect_id rpc_id token events initial) = PyStr "oops"
  /\ check_node_pairs connect_id rpc_id token events
     = Raised (PyStr "'str' object has no attribute 'get'").
Proof. vm_compute. split; reflexivity. Qed.

(** The two sessions of the protocol description: a rejected token, and a
    successful listing with one paired node. *)
Example scenario_bad_token :
  let events := [Message (wire challenge_frame);
                 Message (wire rejected_with_message)] in
  check_node_pairs connect_id rpc_id token events = Raised (PyStr "bad token")
  /\ outbox (run_forever connect_id rpc_id token events initial)
     = [dumps (connect_request_shape connect_id token)].
Proof. vm_compute. split; reflexivity. Qed.

Example scenario_one_paired_node :
  let payload :=
    PyDict [("pending", PyList []);
            ("paired", PyList [PyDict [("nodeId", PyStr "n1");
                                       ("token", PyStr "abcdefghijklmnopqrstuvwxyz")]])] in
  let events := [Message (wire challenge_frame);
                 Message (wire (response_frame connect_id true []));
                 Message (wire (response_frame rpc_id true [("payload", payload)]))] in
  check_node_pairs connect_id rpc_id token events = Returned payload
  /\ In "    Token: abcdefghijklmnopqrst..." (report payload).
Proof. vm_compute. split; [reflexivity | tauto]. Qed.

(** C10.  The connect rejection with an empty error message is recorded as
    the error of the session and the close is asked for, yet the operation
    returns the untouched default result instead of raising. *)
Theorem C10_empty_error_message_returns :
  let events := [Message (wire challenge_frame);
                 Message (wire rejected_with_empty_message)] in
  error_msg (run_forever connect_id rpc_id token events initial) = PyStr ""
  /\ close_requested (run_forever connect_id rpc_id token events initial) = true
  /\ check_node_pairs connect_id rpc_id token events = Returned default_result.
Proof. vm_compute. repeat split. Qed.

(** ** The handler follows the transition relation *)

Section Runs.

Variables connect_id rpc_id token : string.

Lemma on_message_transition (message : string) (st : session) :
  transition connect_id rpc_id token st message
             (on_message connect_id rpc_id token message st).
Proof.
  destruct (loads message) as [v |] eqn:Hloads.
  2: { run_handler Hloads. constructor. }
  destruct v; try (run_handler Hloads; constructor).
  rename entries into d.
  destruct (phase st) eqn:Hphase.
  - rewrite (on_message_awaiting_challenge _ _ _ _ _ Hphase).
    destruct (is_challenge message) eqn:Hc; [| constructor].
    now apply T_challenge.
  - destruct st as [ph rr res em ob cr]; simpl in Hphase; subst ph.
    run_handler Hloads. unfold py_get, dict_get_default, raise, ret.
    destruct (dict_lookup d "type") as [ft |] eqn:Ht; cbn; [| constructor].
    destruct (eq_str ft "res") eqn:Hres; cbn; [| constructor].
    assert (Hresp : is_response d = true)
      by (unfold is_response, dict_get; now rewrite Ht).
    destruct (eq_str (dict_get d "id") connect_id) eqn:Hid; cbn;
      [| constructor].
    destruct (truthy (dict_get d "ok")) eqn:Hok; cbn.
    + now apply (T_hello_ok connect_id rpc_id token (mkSession awaiting_hello rr res em ob cr) message d).
    + destruct (dict_lookup d "error") as [bad |] eqn:Herr.
      * destruct bad as [| b | n | f | s | items | e]; cbn;
          try (match type of Herr with
               | _ = Some ?bad =>
                   apply (T_exception connect_id rpc_id token
                            (mkSession awaiting_hello rr res em ob cr) message d bad)
               end; cbn;
               first [discriminate | assumption
                     | unfold error_field_ok; now rewrite Herr]).
        assert (Hm : rejection_message d "Handshake failed"
                     = dict_get_default e "message" (PyStr "Handshake failed"))
          by (unfold rejection_message; now rewrite Herr).
        unfold dict_get_default in Hm. rewrite <- Hm.
        apply (T_hello_rejected connect_id rpc_id token (mkSession awaiting_hello rr res em ob cr) message d); try assumption; try reflexivity.
        unfold error_field_ok. now rewrite Herr.
      * cbn.
        assert (Hm : rejection_message d "Handshake failed" = PyStr "Handshake failed")
          by (unfold rejection_message; now rewrite Herr).
        rewrite <- Hm.
        apply (T_hello_rejected connect_id rpc_id token (mkSession awaiting_hello rr res em ob cr) message d); try assumption; try reflexivity.
        unfold error_field_ok. now rewrite Herr.
  - destruct st as [ph rr res em ob cr]; simpl in Hphase; subst ph.
    run_handler Hloads. unfold py_get, dict_get_default, raise, ret.
    destruct (dict_lookup d "type") as [ft |] eqn:Ht; cbn; [| constructor].
    destruct (eq_str ft "res") eqn:Hres; cbn; [| constructor].
    assert (Hresp : is_response d = true)
      by (unfold is_response, dict_get; now rewrite Ht).
    destruct (eq_str (dict_get d "id") rpc_id) eqn:Hid; cbn;
      [| constructor].
    destruct (truthy (dict_get d "ok")) eqn:Hok; cbn.
    + now apply (T_result connect_id rpc_id token (mkSession awaiting_response rr res em ob cr) message d).
    + destruct (dict_lookup d "error") as [bad |] eqn:Herr.
      * destruct bad as [| b | n | f | s | items | e]; cbn;
          try (match type of Herr with
               | _ = Some ?bad =>
                   apply (T_exception connect_id rpc_id token
                            (mkSession awaiting_response rr res em ob cr) message d bad)
               end; cbn;
               first [discriminate | assumption
                     | unfold error_field_ok; now rewrite Herr]).
        assert (Hm : rejection_message d "RPC error"
                     = dict_get_default e "message" (PyStr "RPC error"))
          by (unfold rejection_message; now rewrite Herr).
        unfold dict_get_default in Hm. rewrite <- Hm.
        apply (T_call_rejected connect_id rpc_id token (mkSession awaiting_response rr res em ob cr) message d); try assumption; try reflexivity.
        unfold error_field_ok. now rewrite Herr.
      * cbn.
        assert (Hm : rejection_message d "RPC error" = PyStr "RPC error")
          by (unfold rejection_message; now rewrite Herr).
        rewrite <- Hm.
        apply (T_call_rejected connect_id rpc_id token (mkSession awaiting_response rr res em ob cr) message d); try assumption; try reflexivity.
        unfold error_field_ok. now rewrite Herr.
Qed.

(** A property kept by the three callbacks is kept by the whole loop. *)
Lemma run_forever_invariant (I : session -> Prop) :
  (forall m st, I st -> I (on_message connect_id rpc_id token m st)) ->
  (forall e st, I st -> I (on_error e st)) ->
  (forall st, I st -> I (on_close st)) ->
  forall events st, I st -> I (run_forever connect_id rpc_id token events st).
Proof.
  intros Hm He Hc events.
  induction events as [| ev rest IH]; intros st Hst;
    loop_step connect_id rpc_id token.
  - destruct (close_requested st); now apply Hc.
  - destruct (close_requested st); [now apply Hc |].
    destruct ev; [apply IH, Hm, Hst | apply Hc, He, Hst | apply Hc, Hst].
Qed.

(** X1.  Whatever the channel delivers, the frames sent by the end of the
    loop are those of the phase reached: nothing before the challenge, the
    connect Request alone after it, the connect Request followed by the call
    Request after the acknowledgement.  So at most two frames are ever sent,
    each once and in this order. *)
Theorem outbox_follows_phase (events : list ws_event) :
  outbox_matches_phase connect_id rpc_id token
    (run_forever connect_id rpc_id token events initial)
  /\ List.length (outbox (run_forever connect_id rpc_id token events initial))
     <= 2.
Proof.
  assert (H : outbox_matches_phase connect_id rpc_id token
                (run_forever connect_id rpc_id token events initial)).
  { apply run_forever_invariant; try (intros; assumption); [| reflexivity].
    intros m st Hst. unfold outbox_matches_phase in *.
    destruct (on_message_transition m st) as
      [| Hp _ | d Hp _ _ _ _ | d Hp | d Hp | d Hp | d bad Hp];
      cbn; try assumption; rewrite Hst, Hp; reflexivity. }
  split; [exact H |].
  unfold outbox_matches_phase in H. rewrite H.
  destruct (phase _); simpl; lia.
Qed.

(** X2.  A single message never takes the session back a phase and never
    makes it skip one. *)
Theorem phase_advances_by_at_most_one (message : string) (st : session) :
  phase_rank (phase st)
  <= phase_rank (phase (on_message connect_id rpc_id token message st))
  <= S (phase_rank (phase st)).
Proof.
  destruct (on_message_transition message st) as
    [| Hp _ | d Hp _ _ _ _ | d Hp | d Hp | d Hp | d bad Hp];
    cbn; try rewrite Hp; cbn; lia.
Qed.

(** The result left by the loop is the one it started with, or the default
    (an accepted call Response without payload), or the payload of an
    accepted call Response among the messages. *)
Lemma result_provenance (events : list ws_event) :
  forall st : session,
    result (run_forever connect_id rpc_id token events st) = result st
    \/ result (run_forever connect_id rpc_id token events st) = default_result
    \/ exists message : string,
         In (Message message) events
         /\ delivers rpc_id message
                     (result (run_forever connect_id rpc_id token events st)).
Proof.
  induction events as [| ev rest IH]; intros st;
    loop_step connect_id rpc_id token.
  - left. now destruct (close_requested st).
  - destruct (close_requested st); [now left |].
    destruct ev as [m | e |]; [| now left | now left].
    destruct (IH (on_message connect_id rpc_id token m st))
      as [Hsame | [Hdef | (m' & Hin & Hdel)]].
    + rewrite Hsame.
      destruct (on_message_transition m st) as
        [| Hp _ | d Hp _ _ _ _ | d Hp | d Hp Hl Hr Hi Ho | d Hp | d bad Hp];
        cbn; try (now left).
      unfold dict_get_default.
      destruct (dict_lookup d "payload") as [payload |] eqn:Hpay.
      * right. right. exists m. split; [now left |].
        exists d. repeat split; assumption.
      * right. now left.
    + right. now left.
    + right. right. exists m'. split; [now right | exact Hdel].
Qed.

(** X3.  The value returned by the operation is never invented: it is the
    two-empty-list default, or the payload of a message that decodes to a
    Response with the call id and a true [ok]. *)
Theorem returned_value_provenance (events : list ws_event) (value : pyval) :
  check_node_pairs connect_id rpc_id token events = Returned value ->
  value = default_result
  \/ exists message : string,
       In (Message message) events /\ delivers rpc_id message value.
Proof.
  open_verdict connect_id rpc_id token.
  destruct (truthy _); [discriminate |].
  intros [= <-].
  destruct (result_provenance events initial) as [H | [H | H]]; auto.
Qed.

(** The phase moves off the challenge only on the challenge, and reaches the
    last phase only on the acknowledgement. *)
Lemma leaves_challenge_on_challenge (events : list ws_event) :
  forall st : session,
    phase st = awaiting_challenge ->
    phase (run_forever connect_id rpc_id token events st) <> awaiting_challenge ->
    exists m, In (Message m) events /\ is_challenge m = true.
Proof.
  induction events as [| ev rest IH]; intros st Hp Hmoved;
    loop_step_in connect_id rpc_id token Hmoved.
  - destruct (close_requested st); contradiction.
  - destruct (close_requested st); [contradiction |].
    destruct ev as [m | e |]; try contradiction.
    destruct (is_challenge m) eqn:Hc.
    + exists m. split; [now left | exact Hc].
    + rewrite (on_message_awaiting_challenge _ _ _ _ _ Hp), Hc in Hmoved.
      destruct (IH st Hp Hmoved) as (m' & Hin & Hm').
      exists m'. split; [now right | exact Hm'].
Qed.

Lemma reaches_response_on_ack (events : list ws_event) :
  forall st : session,
    phase st <> awaiting_response ->
    phase (run_forever connect_id rpc_id token events st) = awaiting_response ->
    exists m, In (Message m) events /\ acknowledges connect_id m.
Proof.
  induction events as [| ev rest IH]; intros st Hp Hreached;
    loop_step_in connect_id rpc_id token Hreached.
  - destruct (close_requested st); contradiction.
  - destruct (close_requested st); [contradiction |].
    destruct ev as [m | e |]; try contradiction.
    destruct (on_message_transition m st) as
      [| Hq _ | d Hq Hl Hr Hi Ho | d Hq | d Hq | d Hq | d bad Hq].
    1, 2, 4, 5, 6, 7:
      match type of Hreached with
      | phase (run_forever _ _ _ _ ?st1) = _ =>
          destruct (IH st1) as (m' & Hin & Hm');
          [cbn; congruence | exact Hreached
          | exists m'; split; [now right | exact Hm']]
      end.
    exists m. split; [now left |]. exists d. repeat split; assumption.
Qed.

(** X4.  Nothing is sent unless the gateway asked first: if any frame was
    sent, the challenge Event is among the messages received, and if the call
    Request was sent (two frames), so is a true acknowledgement carrying the
    connect id. *)
Theorem requests_are_solicited (events : list ws_event) :
  let st := run_forever connect_id rpc_id token events initial in
  (outbox st <> [] ->
   exists m, In (Message m) events /\ is_challenge m = true)
  /\ (List.length (outbox st) = 2 ->
      exists m, In (Message m) events /\ acknowledges connect_id m).
Proof.
  cbv zeta. destruct (outbox_follows_phase events) as [Hbox _].
  unfold outbox_matches_phase in Hbox. split; intros Hsent.
  - apply (leaves_challenge_on_challenge events initial); [reflexivity |].
    intros Hp. rewrite Hp in Hbox. contradiction.
  - apply (reaches_response_on_ack events initial); [discriminate |].
    rewrite Hbox in Hsent.
    destruct (phase _); [discriminate | discriminate | reflexivity].
Qed.

(** X6.  A transport error that arrives while no handler has asked for the
    close ends the loop, and its text, when not empty, is what the operation
    raises, whatever the messages before it did. *)
Theorem transport_error_is_raised
        (messages : list string) (error : string) (after : list ws_event) :
  close_requested
    (run_forever connect_id rpc_id token (map Message messages) initial)
  = false ->
  error <> "" ->
  check_node_pairs connect_id rpc_id token
    (map Message messages ++ Error error :: after)%list
  = Raised (PyStr error).
Proof.
  intros Hopen Hne.
  assert (H : forall st,
             close_requested
               (run_forever connect_id rpc_id token (map Message messages) st)
             = false ->
             error_msg
               (run_forever connect_id rpc_id token
                  (map Message messages ++ Error error :: after)%list st)
             = PyStr error).
  { clear Hopen. induction messages as [| m ms IH]; intros st Hst;
      cbn [map app] in *; loop_step connect_id rpc_id token;
      loop_step_in connect_id rpc_id token Hst.
    - destruct (close_requested st) eqn:Hc; cbn in Hst;
        [congruence | reflexivity].
    - destruct (close_requested st) eqn:Hc; cbn in Hst;
        [congruence | now apply IH]. }
  open_verdict connect_id rpc_id token. rewrite (H initial Hopen).
  destruct error; [contradiction | reflexivity].
Qed.

Lemma on_message_acknowledged (message : string) (st : session) :
  phase st = awaiting_hello ->
  acknowledges connect_id message ->
  on_message connect_id rpc_id token message st =
    {| phase := awaiting_response;
       response_received := response_received st;
       result := result st; error_msg := error_msg st;
       outbox := (outbox st ++ [dumps (rpc_req rpc_id)])%list;
       close_requested := close_requested st |}.
Proof.
  unfold is_response, response_id_is.
  intros Hphase (d & Hloads & Hres & Hid & Hok).
  run_handler Hloads. rewrite (eq_str_type _ _ Hres). cbn.
  unfold response_id_is in Hid. rewrite Hphase, Hid, Hok. reflexivity.
Qed.

Lemma on_message_delivered (message : string) (st : session) (payload : pyval) :
  phase st = awaiting_response ->
  delivers rpc_id message payload ->
  on_message connect_id rpc_id token message st =
    {| phase := awaiting_response;
       response_received := true;
       result := payload; error_msg := error_msg st;
       outbox := outbox st;
       close_requested := true |}.
Proof.
  intros Hphase (d & Hloads & Hres & Hid & Hok & Hpay).
  destruct st as [ph rr res em ob cr]; simpl in Hphase; subst ph.
  run_handler Hloads. rewrite (eq_str_type _ _ Hres). cbn.
  unfold response_id_is in Hid. rewrite Hid, Hok.
  unfold dict_get_default. rewrite Hpay. reflexivity.
Qed.

Lemma successful_exchange_run
        (challenge ack answer : string) (payload : pyval)
        (later : list ws_event) :
  is_challenge challenge = true ->
  acknowledges connect_id ack ->
  delivers rpc_id answer payload ->
  let events := Message challenge :: Message ack :: Message answer :: later in
  check_node_pairs connect_id rpc_id token events = Returned payload
  /\ outbox (run_forever connect_id rpc_id token events initial)
     = [dumps (connect_req connect_id token); dumps (rpc_req rpc_id)].
Proof.
  intros Hc Hack Hans. cbv zeta.
  assert (H : run_forever connect_id rpc_id token
                (Message challenge :: Message ack :: Message answer :: later)
                initial
              = {| phase := awaiting_response; response_received := true;
                   result := payload; error_msg := PyNone;
                   outbox := [dumps (connect_req connect_id token);
                              dumps (rpc_req rpc_id)];
                   close_requested := true |}).
  { loop_step connect_id rpc_id token. cbn [close_requested initial].
    rewrite (on_message_awaiting_challenge connect_id rpc_id token challenge
               initial eq_refl), Hc.
    cbn [close_requested].
    rewrite (on_message_acknowledged ack); [| reflexivity | exact Hack].
    cbn [close_requested].
    rewrite (on_message_delivered answer _ payload);
      [| reflexivity | exact Hans].
    rewrite run_forever_after_close by reflexivity. reflexivity. }
  open_verdict connect_id rpc_id token. rewrite H. split; reflexivity.
Qed.

(** X8.  The full exchange: the challenge, a true acknowledgement with the
    connect id and a true call Response with the call id and a payload make
    the operation return that payload, having sent the connect Request and
    then the call Request; whatever arrives afterwards is not looked at. *)
Theorem successful_exchange
        (challenge ack answer : string) (payload : pyval)
        (later : list ws_event) :
  is_challenge challenge = true ->
  acknowledges connect_id ack ->
  delivers rpc_id answer payload ->
  let events := Message challenge :: Message ack :: Message answer :: later in
  check_node_pairs connect_id rpc_id token events = Returned payload
  /\ outbox (run_forever connect_id rpc_id token events initial)
     = [dumps (connect_req connect_id token); dumps (rpc_req rpc_id)].
Proof. exact (successful_exchange_run challenge ack answer payload later). Qed.

(** X9.  While awaiting the call result, a Response with the call id, an
    [ok] that is false and an [error] field that is absent or a dictionary
    records [error.message], or the text RPC error when there is none, and
    asks for the close.  The accumulated result is left as it was and nothing
    is sent. *)
Theorem call_rejection (message : string) (st : session) (d : pydict) :
  phase st = awaiting_response ->
  loads message = Some (PyDict d) ->
  is_response d = true ->
  response_id_is d rpc_id = true ->
  truthy (dict_get d "ok") = false ->
  error_field_ok d = true ->
  on_message connect_id rpc_id token message st =
    {| phase := awaiting_response;
       response_received := response_received st;
       result := result st;
       error_msg := rejection_message d "RPC error";
       outbox := outbox st;
       close_requested := true |}.
Proof.
  unfold is_response, response_id_is, error_field_ok, rejection_message.
  intros Hphase Hloads Hres Hid Hok Herr.
  destruct st as [ph rr res em ob cr]; simpl in Hphase; subst ph.
  run_handler Hloads. rewrite (eq_str_type _ _ Hres). cbn.
  rewrite Hid, Hok. unfold dict_get_default.
  destruct (dict_lookup d "error") as [v |]; [| reflexivity].
  destruct v; try discriminate. reflexivity.
Qed.

End Runs.

(** ** Runs in any runtime *)

Section AnyRuns.

Variable rt : runtime.
Variables connect_id rpc_id token : string.

(** One message changes the error only if it can be a cause of failure. *)
Lemma error_msg_source (message : string) (st : session) :
  error_msg (on_message_in rt connect_id rpc_id token message st) = error_msg st
  \/ message_cause rt message.
Proof.
  unfold message_cause. run_in.
  destruct (json_loads_of rt message) as [v | e] eqn:Hloads; cbn.
  - destruct v; cbn; try (now left). rename entries into d.
    destruct (dict_lookup d "type") as [ft |] eqn:Ht; cbn; [| now left].
    assert (Hfalsy : truthy (dict_get d "ok") = false ->
                     eq_str ft "res" = true ->
                     exists d0, Ok (PyDict d) = Ok (PyDict d0)
                                /\ is_response d0 = true
                                /\ truthy (dict_get d0 "ok") = false).
    { intros Hok Hres. exists d. repeat split; [| exact Hok].
      unfold is_response, dict_get. now rewrite Ht. }
    destruct (phase st); cbn.
    + destruct (eq_str ft "event" && _); cbn; [| now left].
      destruct (send_raises rt message) as [e |]; cbn; [| now left].
      right. right. right. left. discriminate.
    + destruct (eq_str ft "res") eqn:Hres; cbn; [| now left].
      destruct (eq_str (dict_get d "id") connect_id); cbn; [| now left].
      destruct (truthy (dict_get d "ok")) eqn:Hok; cbn.
      * destruct (send_raises rt message) as [e |]; cbn; [| now left].
        right. right. right. left. discriminate.
      * right. right. left. now apply Hfalsy.
    + destruct (eq_str ft "res") eqn:Hres; cbn; [| now left].
      destruct (eq_str (dict_get d "id") rpc_id); cbn; [| now left].
      destruct (truthy (dict_get d "ok")) eqn:Hok; cbn.
      * destruct (close_raises rt message) as [e |]; cbn; [| now left].
        right. right. right. right. discriminate.
      * right. right. left. now apply Hfalsy.
  - destruct (is_dropped e) eqn:Hdrop; [now left |].
    right. left. now exists e.
Qed.

(** The error left by the loop is the one it started with, unless something
    among the events can have set it. *)
Lemma error_provenance (events : list ws_event) :
  forall st : session,
    error_msg (run_forever_in rt connect_id rpc_id token events st)
    = error_msg st
    \/ failure_cause_in rt events.
Proof.
  induction events as [| ev rest IH]; intros st; cbn [run_forever_in].
  - left. now destruct (close_requested st).
  - destruct (close_requested st); [now left |].
    destruct ev as [m | e |].
    + destruct (IH (on_message_in rt connect_id rpc_id token m st))
        as [Hsame | [(e & Hin) | (m' & Hin & Hcause)]].
      * rewrite Hsame.
        destruct (error_msg_source m st) as [Hkept | Hcause]; [now left |].
        right. right. exists m. split; [now left | exact Hcause].
      * right. left. exists e. now right.
      * right. right. exists m'. split; [now right | exact Hcause].
    + right. left. exists e. now left.
    + now left.
Qed.

(** X19.  The operation does not fail without a cause, whatever [json.loads]
    and the transport calls do: if it raises, then a transport error
    occurred, or for some message received [json.loads] raised an exception
    that is not dropped, or the message decodes to a Response whose [ok] is
    false, or [ws.send] or [ws.close] raised while it was handled. *)
Theorem failure_has_cause (events : list ws_event) (argument : pyval) :
  check_node_pairs_in rt connect_id rpc_id token events = Raised argument ->
  failure_cause_in rt events.
Proof.
  unfold check_node_pairs_in, on_open. cbv zeta. intros Hraised.
  destruct (error_provenance events initial) as [Hsame | Hcause];
    [| exact Hcause].
  rewrite Hsame in Hraised. discriminate.
Qed.

(** X7.  If the channel closes without the challenge ever arriving, nothing
    is sent and the operation returns the two-empty-list default: an early
    closure is not reported as an error.  This supposes that no message is
    the challenge Event, that [json.loads] raises on none of them an
    exception other than those dropped, and that no transport error occurs. *)
Theorem closure_before_challenge (events : list ws_event) :
  (forall m, In (Message m) events ->
             is_challenge_in rt m = false /\ decodes_or_drops rt m) ->
  (forall e, ~ In (Error e) events) ->
  outbox (run_forever_in rt connect_id rpc_id token events initial) = []
  /\ check_node_pairs_in rt connect_id rpc_id token events
     = Returned default_result.
Proof.
  intros Hquiet Hnoerr.
  assert (H : run_forever_in rt connect_id rpc_id token events initial
              = on_close initial).
  { induction events as [| ev rest IH]; cbn [run_forever_in];
      cbn [close_requested initial]; [reflexivity |].
    destruct ev as [m | e |].
    - destruct (Hquiet m) as [Hc Hd]; [now left |].
      rewrite (on_message_in_awaiting_challenge rt connect_id rpc_id token m
                 initial eq_refl), Hc.
      assert (Herr : error_after (loads_fault rt m) (error_msg initial)
                     = PyNone).
      { unfold error_after, loads_fault, decodes_or_drops in *.
        destruct (json_loads_of rt m) as [v | e]; [reflexivity |].
        now rewrite Hd. }
      rewrite Herr. apply IH.
      + intros m' Hin. apply Hquiet. now right.
      + intros e Hin. apply (Hnoerr e). now right.
    - exfalso. apply (Hnoerr e). now left.
    - reflexivity. }
  unfold check_node_pairs_in, on_open. cbv zeta. rewrite H.
  split; reflexivity.
Qed.

End AnyRuns.

(** ** The connection URL *)

Lemma length_app (a b : string) :
  String.length (a ++ b) = String.length a + String.length b.
Proof. induction a as [| c a IH]; simpl; [reflexivity | now rewrite IH]. Qed.

Lemma substring_after (a b : string) :
  substring (String.length a) (String.length b) (a ++ b) = b.
Proof.
  induction a as [| c a IH]; simpl; [| exact IH].
  apply substring_whole. lia.
Qed.

Lemma substring_split (n : nat) :
  forall (s : string) (k : nat),
    n + k = String.length s ->
    s = substring 0 n s ++ substring n k s.
Proof.
  induction n as [| n IH]; intros s k Hlen.
  - rewrite (substring_whole k s) by lia. now destruct s.
  - destruct s as [| c s]; simpl in *; [lia |].
    f_equal. apply IH. lia.
Qed.

Lemma endswith_app (a suffix : string) : endswith (a ++ suffix) suffix = true.
Proof.
  unfold endswith. rewrite length_app.
  replace (String.length a + String.length suffix - String.length suffix)
    with (String.length a) by lia.
  rewrite substring_after, String.eqb_refl.
  rewrite andb_true_r. apply Nat.leb_le. lia.
Qed.

Lemma endswith_split (s suffix : string) :
  endswith s suffix = true -> exists a, s = a ++ suffix.
Proof.
  unfold endswith. intros H. apply andb_true_iff in H as [Hle Heq].
  apply Nat.leb_le in Hle. apply String.eqb_eq in Heq.
  remember (String.length suffix) as k eqn:Hk.
  exists (substring 0 (String.length s - k) s).
  rewrite <- Heq. apply substring_split. lia.
Qed.

Lemma contains_char_app (c : ascii) (a b : string) :
  contains_char c (a ++ b) = contains_char c a || contains_char c b.
Proof.
  induction a as [| x a IH]; simpl; [reflexivity |].
  now rewrite IH, orb_assoc.
Qed.

(** X10.  The gateway URL completed by [main] always ends with the [/rpc]
    suffix; it is the given URL followed by nothing, by [rpc] or by [/rpc];
    and completing a completed URL changes nothing. *)
Theorem with_rpc_suffix_ends_with_rpc (gateway_url : string) :
  endswith (with_rpc_suffix gateway_url) "/rpc" = true
  /\ (with_rpc_suffix gateway_url = gateway_url
      \/ with_rpc_suffix gateway_url = gateway_url ++ "rpc"
      \/ with_rpc_suffix gateway_url = gateway_url ++ "/rpc")
  /\ with_rpc_suffix (with_rpc_suffix gateway_url)
     = with_rpc_suffix gateway_url.
Proof.
  assert (Hends : endswith (with_rpc_suffix gateway_url) "/rpc" = true).
  { unfold with_rpc_suffix.
    destruct (endswith gateway_url "/rpc") eqn:Hrpc; [exact Hrpc |].
    destruct (endswith gateway_url "/") eqn:Hslash.
    - destruct (endswith_split _ _ Hslash) as [a ->].
      rewrite append_assoc. apply (endswith_app a "/rpc").
    - rewrite append_assoc. apply (endswith_app gateway_url "/rpc"). }
  split; [exact Hends |]. split.
  - unfold with_rpc_suffix.
    destruct (endswith gateway_url "/rpc"); [now left |].
    destruct (endswith gateway_url "/"); [right; now left |].
    right. right. now rewrite append_assoc.
  - unfold with_rpc_suffix at 1. now rewrite Hends.
Qed.

(** X11.  The URL that is opened always has a query part and ends with the
    token parameter, whatever the gateway URL and the token are. *)
Theorem ws_url_carries_token (gateway_url token : string) :
  contains_char "?" (ws_url gateway_url token) = true
  /\ endswith (ws_url gateway_url token) ("token=" ++ token) = true.
Proof.
  unfold ws_url. split.
  - rewrite contains_char_app.
    destruct (contains_char "?" gateway_url); reflexivity.
  - rewrite <- append_assoc. apply endswith_app.
Qed.

(** ** The report *)

Section ReportRuns.

Variable py_str : pyval -> string.
Variable format_timestamp : pyval -> outcome string.

(** X12.  A result that is not a dictionary makes [print_result] raise the
    attribute error of its first [get] before anything is printed. *)
Theorem print_result_needs_dict (result : pyval) (out : list string) :
  (forall d, result <> PyDict d) ->
  print_result py_str format_timestamp result out
  = (Raise (AttributeError (type_name result) "get"), out).
Proof.
  intros Hnot. destruct result; try reflexivity.
  now destruct (Hnot entries).
Qed.

Lemma print_result_empty_lines (d : pydict) (out : list string) :
  truthy (dict_get_default d "pending" (PyList [])) = false ->
  truthy (dict_get_default d "paired" (PyList [])) = false ->
  print_result py_str format_timestamp (PyDict d) out
  = (Ok tt,
     (out ++ [(newline ++ YELLOW ++ "Pending Node Pairing Requests:" ++ NC)%string;
              "  - None";
              (newline ++ GREEN ++ "Paired Nodes:" ++ NC)%string;
              "  - None"])%list).
Proof.
  intros Hpending Hpaired.
  unfold print_result, bind, py_get, ret, print.
  rewrite Hpending, Hpaired.
  now rewrite <- !app_assoc.
Qed.

(** X13.  A result dictionary whose [pending] and [paired] entries are
    missing or empty prints the two headings, each followed by the line that
    says None, and raises nothing. *)
Theorem print_result_empty (d : pydict) (out : list string) :
  truthy (dict_get_default d "pending" (PyList [])) = false ->
  truthy (dict_get_default d "paired" (PyList [])) = false ->
  print_result py_str format_timestamp (PyDict d) out
  = (Ok tt,
     (out ++ [(newline ++ YELLOW ++ "Pending Node Pairing Requests:" ++ NC)%string;
              "  - None";
              (newline ++ GREEN ++ "Paired Nodes:" ++ NC)%string;
              "  - None"])%list).
Proof. exact (print_result_empty_lines d out). Qed.

Lemma for_each_ok (body : pyval -> P unit) (items : list pyval) :
  Forall (fun x => forall out, fst (body x out) = Ok tt) items ->
  forall out, fst (for_each items body out) = Ok tt.
Proof.
  induction 1 as [| x rest Hx _ IH]; intros out; simpl; [reflexivity |].
  unfold bind. specialize (Hx out).
  destruct (body x out) as [[[] | e] out']; simpl in Hx; [| discriminate].
  apply IH.
Qed.

Lemma print_timestamp_ok (label : string) (d : pydict) (key : string)
      (out : list string) :
  timestamp_ok format_timestamp d key ->
  fst ((if truthy (dict_get_default d key PyNone)
        then print_timestamp format_timestamp label
                             (dict_get_default d key PyNone)
        else ret tt) out) = Ok tt.
Proof.
  intros Hts. unfold timestamp_ok in Hts.
  destruct (truthy (dict_get_default d key PyNone)); [| reflexivity].
  destruct (Hts eq_refl) as [text Htext].
  unfold print_timestamp. now rewrite Htext.
Qed.

Lemma print_pending_request_ok (req : pyval) :
  pending_ok format_timestamp req ->
  forall out, fst (print_pending_request py_str format_timestamp req out) = Ok tt.
Proof.
  intros (d & -> & Hts) out.
  unfold print_pending_request, bind, py_get, ret, print.
  destruct (truthy (dict_get_default d "displayName" PyNone));
    destruct (truthy (dict_get_default d "platform" PyNone));
    apply (print_timestamp_ok _ d "ts" _ Hts).
Qed.

Lemma print_paired_node_ok (node : pyval) :
  paired_ok format_timestamp node ->
  forall out, fst (print_paired_node py_str format_timestamp node out) = Ok tt.
Proof.
  intros (d & -> & Htoken & Hts) out.
  unfold print_paired_node, bind, py_get, ret, print.
  destruct (truthy (dict_get_default d "platform" PyNone));
    destruct (dict_get_default d "token" (PyStr "")) as [| b | n | f | s | l | e];
    cbn in Htoken |- *; try rewrite Htoken; cbn;
    try (destruct (negb (s =? "")); cbn);
    try (destruct l; cbn);
    apply (print_timestamp_ok _ d "approvedAtMs" _ Hts).
Qed.

(** X14.  A well-formed listing prints without an exception: when [pending]
    and [paired] are lists of dictionaries whose truthy timestamps can be
    formatted and whose truthy tokens are strings or lists, [print_result]
    runs to its end and raises nothing. *)
Theorem print_result_well_formed
        (d : pydict) (pending paired : list pyval) (out : list string) :
  dict_get_default d "pending" (PyList []) = PyList pending ->
  dict_get_default d "paired" (PyList []) = PyList paired ->
  Forall (pending_ok format_timestamp) pending ->
  Forall (paired_ok format_timestamp) paired ->
  fst (print_result py_str format_timestamp (PyDict d) out) = Ok tt.
Proof.
  intros Hpending Hpaired Hps Hns.
  unfold print_result, bind, py_get, ret, print.
  rewrite Hpending, Hpaired.
  assert (Hp : forall o,
             fst (for_each pending
                    (print_pending_request py_str format_timestamp) o) = Ok tt).
  { apply for_each_ok. eapply Forall_impl; [| exact Hps].
    intros req Hreq. now apply print_pending_request_ok. }
  assert (Hn : forall o,
             fst (for_each paired
                    (print_paired_node py_str format_timestamp) o) = Ok tt).
  { apply for_each_ok. eapply Forall_impl; [| exact Hns].
    intros node Hnode. now apply print_paired_node_ok. }
  destruct pending as [| p ps]; destruct paired as [| n ns];
    cbn [truthy py_iter]; unfold ret.
  - reflexivity.
  - apply Hn.
  - match goal with
    | |- context [for_each (p :: ps) ?body ?o] =>
        specialize (Hp o); destruct (for_each (p :: ps) body o) as [[[] | e] o']
    end; [reflexivity | discriminate].
  - match goal with
    | |- context [for_each (p :: ps) ?body ?o] =>
        specialize (Hp o); destruct (for_each (p :: ps) body o) as [[[] | e] o']
    end; [apply Hn | discriminate].
Qed.

End ReportRuns.

(** ** The program as a whole *)

Lemma on_message_rejected (connect_id rpc_id token message : string)
      (st : session) (d : pydict) :
  phase st = awaiting_hello ->
  loads message = Some (PyDict d) ->
  is_response d = true ->
  response_id_is d connect_id = true ->
  truthy (dict_get d "ok") = false ->
  error_field_ok d = true ->
  on_message connect_id rpc_id token message st =
    {| phase := awaiting_hello;
       response_received := response_received st;
       result := result st;
       error_msg := rejection_message d "Handshake failed";
       outbox := outbox st;
       close_requested := true |}.
Proof.
  unfold is_response, response_id_is, error_field_ok, rejection_message.
  intros Hphase Hloads Hres Hid Hok Herr.
  destruct st as [ph rr res em ob cr]; simpl in Hphase; subst ph.
  run_handler Hloads. rewrite (eq_str_type _ _ Hres). cbn.
  rewrite Hid, Hok. unfold dict_get_default.
  destruct (dict_lookup d "error") as [v |]; [| reflexivity].
  destruct v; try discriminate. reflexivity.
Qed.

Section MainRuns.

Variable py_str : pyval -> string.
Variable format_timestamp : pyval -> outcome string.
Variables connect_id rpc_id : string.
Variable transport : string -> list ws_event.

(** X15.  The program opens no connection exactly when the gateway URL is
    missing or the token is missing or empty, and in that case it exits with
    status 1. *)
Theorem main_requires_arguments (prog : string) (args : list string) :
  let run := main py_str format_timestamp connect_id rpc_id transport
                  prog args in
  (opened run = None <-> args = [] \/ nth 1 args "" = "")
  /\ (opened run = None -> exit_status run = 1%Z).
Proof.
  cbv zeta. destruct args as [| gateway_url rest].
  - simpl. split; [split; auto | reflexivity].
  - destruct rest as [| token rest]; simpl.
    + split; [split; auto | reflexivity].
    + destruct token as [| c token]; simpl.
      * split; [split; auto | reflexivity].
      * split; [split |].
        -- destruct (check_node_pairs _ _ _ _);
             [| destruct (print_result _ _ _ _) as [[[] | e] out]];
             discriminate.
        -- intros [H | H]; discriminate.
        -- destruct (check_node_pairs _ _ _ _);
             [| destruct (print_result _ _ _ _) as [[[] | e] out]];
             discriminate.
Qed.

(** X16.  A rejected handshake is reported: when the channel opened at the
    completed URL delivers the challenge and then a Response with the connect
    id and a false [ok] whose error message is a non-empty text, the program
    prints its two header lines and one error line with that text, and exits
    with status 1. *)
Theorem main_reports_rejection
        (prog gateway_url token : string) (rest : list string)
        (challenge rejection text : string) (d e : pydict)
        (later : list ws_event) :
  token <> "" ->
  transport (ws_url (with_rpc_suffix gateway_url) token)
  = Message challenge :: Message rejection :: later ->
  is_challenge challenge = true ->
  loads rejection = Some (PyDict d) ->
  is_response d = true ->
  response_id_is d connect_id = true ->
  truthy (dict_get d "ok") = false ->
  dict_lookup d "error" = Some (PyDict e) ->
  dict_lookup e "message" = Some (PyStr text) ->
  text <> "" ->
  main py_str format_timestamp connect_id rpc_id transport prog
       (gateway_url :: token :: rest)
  = {| printed :=
         [BLUE ++ "OpenClaw Gateway Node Pairing Status" ++ NC;
          GRAY ++ "Gateway: " ++ with_rpc_suffix gateway_url ++ NC;
          newline ++ RED ++ "Error: " ++ text ++ NC];
       exit_status := 1;
       opened := Some (ws_url (with_rpc_suffix gateway_url) token) |}.
Proof.
  intros Htoken Hevents Hc Hloads Hres Hid Hok Herr Hmsg Htext.
  assert (Hverdict :
            check_node_pairs connect_id rpc_id token
              (Message challenge :: Message rejection :: later)
            = Raised (PyStr text)).
  { open_verdict connect_id rpc_id token.
    loop_step connect_id rpc_id token. cbn [close_requested initial].
    rewrite (on_message_awaiting_challenge connect_id rpc_id token challenge
               initial eq_refl), Hc.
    cbn [close_requested].
    rewrite (on_message_rejected connect_id rpc_id token rejection _ d);
      try assumption; try reflexivity;
      [| unfold error_field_ok; now rewrite Herr].
    rewrite run_forever_after_close by reflexivity.
    unfold rejection_message, dict_get_default. rewrite Herr, Hmsg. cbn.
    destruct text; [contradiction | reflexivity]. }
  unfold main.
  destruct token as [| c token]; [contradiction |].
  cbn [truthy negb String.eqb]. cbv zeta.
  rewrite Hevents, Hverdict. reflexivity.
Qed.

(** X17.  A call result that is not a dictionary is adopted and then makes the
    report fail: after the challenge, a true acknowledgement and a true call
    Response whose payload is not a dictionary, the program prints its header
    and the attribute error of [print_result], and exits with status 1. *)
Theorem main_reports_malformed_payload
        (prog gateway_url token : string) (rest : list string)
        (challenge ack answer : string) (payload : pyval)
        (later : list ws_event) :
  token <> "" ->
  transport (ws_url (with_rpc_suffix gateway_url) token)
  = Message challenge :: Message ack :: Message answer :: later ->
  is_challenge challenge = true ->
  acknowledges connect_id ack ->
  delivers rpc_id answer payload ->
  (forall d, payload <> PyDict d) ->
  main py_str format_timestamp connect_id rpc_id transport prog
       (gateway_url :: token :: rest)
  = {| printed :=
         [BLUE ++ "OpenClaw Gateway Node Pairing Status" ++ NC;
          GRAY ++ "Gateway: " ++ with_rpc_suffix gateway_url ++ NC;
          newline ++ RED ++ "Error: '" ++ type_name payload
            ++ "' object has no attribute 'get'" ++ NC];
       exit_status := 1;
       opened := Some (ws_url (with_rpc_suffix gateway_url) token) |}.
Proof.
  intros Htoken Hevents Hc Hack Hans Hnot.
  destruct (successful_exchange_run connect_id rpc_id token challenge ack
              answer payload later Hc Hack Hans) as [Hverdict _].
  unfold main.
  destruct token as [| c token]; [contradiction |].
  cbn [truthy negb String.eqb]. cbv zeta.
  rewrite Hevents, Hverdict.
  destruct payload; try reflexivity. now destruct (Hnot entries).
Qed.

(** X18.  An empty listing is a success: after the challenge, a true
    acknowledgement and a true call Response whose payload is a dictionary
    with no pending and no paired entries, the program prints its header, the
    two headings each followed by the line that says None, and exits with
    status 0. *)
Theorem main_prints_empty_listing
        (prog gateway_url token : string) (rest : list string)
        (challenge ack answer : string) (listing : pydict)
        (later : list ws_event) :
  token <> "" ->
  transport (ws_url (with_rpc_suffix gateway_url) token)
  = Message challenge :: Message ack :: Message answer :: later ->
  is_challenge challenge = true ->
  acknowledges connect_id ack ->
  delivers rpc_id answer (PyDict listing) ->
  truthy (dict_get_default listing "pending" (PyList [])) = false ->
  truthy (dict_get_default listing "paired" (PyList [])) = false ->
  main py_str format_timestamp connect_id rpc_id transport prog
       (gateway_url :: token :: rest)
  = {| printed :=
         [BLUE ++ "OpenClaw Gateway Node Pairing Status" ++ NC;
          GRAY ++ "Gateway: " ++ with_rpc_suffix gateway_url ++ NC;
          newline ++ YELLOW ++ "Pending Node Pairing Requests:" ++ NC;
          "  - None";
          newline ++ GREEN ++ "Paired Nodes:" ++ NC;
          "  - None"];
       exit_status := 0;
       opened := Some (ws_url (with_rpc_suffix gateway_url) token) |}.
Proof.
  intros Htoken Hevents Hc Hack Hans Hpending Hpaired.
  destruct (successful_exchange_run connect_id rpc_id token challenge ack
              answer (PyDict listing) later Hc Hack Hans) as [Hverdict _].
  unfold main.
  destruct token as [| c token]; [contradiction |].
  cbn [truthy negb String.eqb]. cbv zeta.
  rewrite Hevents, Hverdict.
  rewrite (print_result_empty_lines py_str format_timestamp listing _
             Hpending Hpaired).
  reflexivity.
Qed.

End MainRuns.

(** ** The further properties at concrete sessions *)

Lemma returned_value_provenance_witness :
  PyStr "oops" = default_result
  \/ exists message : string,
       In (Message message)
          [Message (wire challenge_frame);
           Message (wire (response_frame connect_id true []));
           Message (wire result_with_text_payload)]
       /\ delivers rpc_id message (PyStr "oops").
Proof.
  apply (returned_value_provenance connect_id rpc_id token). reflexivity.
Defined.

Lemma requests_are_solicited_witness :
  exists m,
    In (Message m) [Message (wire challenge_frame);
                    Message (wire (response_frame connect_id true []))]
    /\ acknowledges connect_id m.
Proof.
  apply (requests_are_solicited connect_id rpc_id token
           [Message (wire challenge_frame);
            Message (wire (response_frame connect_id true []))]).
  reflexivity.
Defined.

Lemma transport_error_is_raised_witness :
  check_node_pairs connect_id rpc_id token
    (map Message [wire challenge_frame]
     ++ [Error "Connection refused"; Closed])%list
  = Raised (PyStr "Connection refused").
Proof.
  apply (transport_error_is_raised connect_id rpc_id token
           [wire challenge_frame] "Connection refused" [Closed]);
    [reflexivity | discriminate].
Defined.

Lemma closure_before_challenge_witness :
  outbox (run_forever_in with_int_limit connect_id rpc_id token
            [Message "{not json"; Closed] initial) = []
  /\ check_node_pairs_in with_int_limit connect_id rpc_id token
       [Message "{not json"; Closed]
     = Returned default_result.
Proof.
  apply (closure_before_challenge with_int_limit connect_id rpc_id token
           [Message "{not json"; Closed]).
  - intros m [H | [H | []]]; [| discriminate].
    injection H as <-. split; reflexivity.
  - intros e [H | [H | []]]; discriminate.
Defined.

Lemma failure_has_cause_witness :
  failure_cause_in connection_lost [Message (wire challenge_frame); Closed].
Proof.
  apply (failure_has_cause connection_lost connect_id rpc_id token
           [Message (wire challenge_frame); Closed]
           (PyStr "Connection is already closed.")).
  reflexivity.
Defined.

Lemma ack_acknowledges :
  acknowledges connect_id (wire (response_frame connect_id true [])).
Proof.
  exists (response_frame connect_id true []). repeat split.
Defined.

Lemma successful_exchange_witness :
  check_node_pairs connect_id rpc_id token
    [Message (wire challenge_frame);
     Message (wire (response_frame connect_id true []));
     Message (wire result_with_text_payload)]
  = Returned (PyStr "oops").
Proof.
  apply (successful_exchange connect_id rpc_id token
           (wire challenge_frame) (wire (response_frame connect_id true []))
           (wire result_with_text_payload) (PyStr "oops") []).
  - reflexivity.
  - exact ack_acknowledges.
  - exists result_with_text_payload. repeat split.
Defined.

Lemma call_rejection_witness :
  error_msg (handle (wire rejected_call) awaiting_result) = PyStr "denied"
  /\ result (handle (wire rejected_call) awaiting_result) = default_result.
Proof.
  unfold handle.
  rewrite (call_rejection connect_id rpc_id token (wire rejected_call)
             awaiting_result rejected_call); try reflexivity.
  split; reflexivity.
Defined.

Lemma print_result_needs_dict_witness :
  print_result (fun _ => "") (fun _ => Ok "") (PyStr "oops") []
  = (Raise (AttributeError "str" "get"), []).
Proof.
  apply (print_result_needs_dict (fun _ => "") (fun _ => Ok "")
           (PyStr "oops") []).
  discriminate.
Defined.

Lemma print_result_empty_witness :
  fst (print_result (fun _ => "") (fun _ => Ok "") (PyDict []) []) = Ok tt.
Proof.
  rewrite (print_result_empty (fun _ => "") (fun _ => Ok "") [] []);
    reflexivity.
Defined.

Lemma print_result_well_formed_witness :
  fst (print_result (fun _ => "") (fun _ => Ok "")
         (PyDict [("pending", PyList [PyDict [("nodeId", PyStr "n0");
                                              ("ts", PyInt 1700000000000)]]);
                  ("paired", PyList [PyDict [("nodeId", PyStr "n1");
                                             ("token", PyStr "abc")]])])
         [])
  = Ok tt.
Proof.
  eapply (print_result_well_formed (fun _ => "") (fun _ => Ok ""));
    [reflexivity | reflexivity | |].
  - constructor; [| constructor].
    eexists. split; [reflexivity |]. intros _. now exists "".
  - constructor; [| constructor].
    eexists. split; [reflexivity |]. split; [exact I |].
    intros H. discriminate H.
Defined.

Lemma main_requires_arguments_witness :
  exit_status
    (main (fun _ => "") (fun _ => Ok "") connect_id rpc_id (fun _ => [])
          "check-node-pairs.py" ["ws://localhost:8080"; ""])
  = 1%Z.
Proof.
  apply (main_requires_arguments (fun _ => "") (fun _ => Ok "")
           connect_id rpc_id (fun _ => [])
           "check-node-pairs.py" ["ws://localhost:8080"; ""]).
  reflexivity.
Defined.

Lemma main_reports_rejection_witness :
  exit_status (run_main [Message (wire challenge_frame);
                         Message (wire rejected_with_message)]) = 1%Z
  /\ nth 2 (printed (run_main [Message (wire challenge_frame);
                               Message (wire rejected_with_message)])) ""
     = newline ++ RED ++ "Error: bad token" ++ NC.
Proof.
  unfold run_main.
  rewrite (main_reports_rejection (fun _ => "") (fun _ => Ok "")
             connect_id rpc_id
             (fun _ => [Message (wire challenge_frame);
                        Message (wire rejected_with_message)])
             "check-node-pairs.py" "ws://localhost:8080" token []
             (wire challenge_frame) (wire rejected_with_message) "bad token"
             rejected_with_message [("message", PyStr "bad token")] []);
    try reflexivity; try discriminate.
  split; reflexivity.
Defined.

Lemma main_reports_malformed_payload_witness :
  exit_status (run_main [Message (wire challenge_frame);
                         Message (wire (response_frame connect_id true []));
                         Message (wire result_with_text_payload)]) = 1%Z.
Proof.
  unfold run_main.
  rewrite (main_reports_malformed_payload (fun _ => "") (fun _ => Ok "")
             connect_id rpc_id
             (fun _ => [Message (wire challenge_frame);
                        Message (wire (response_frame connect_id true []));
                        Message (wire result_with_text_payload)])
             "check-node-pairs.py" "ws://localhost:8080" token []
             (wire challenge_frame) (wire (response_frame connect_id true []))
             (wire result_with_text_payload) (PyStr "oops") []);
    try reflexivity; try discriminate.
  - exists (response_frame connect_id true []). repeat split.
  - exists result_with_text_payload. repeat split.
Defined.

Lemma main_prints_empty_listing_witness :
  exit_status (run_main [Message (wire challenge_frame);
                         Message (wire (response_frame connect_id true []));
                         Message (wire result_with_empty_listing)]) = 0%Z.
Proof.
  unfold run_main.
  rewrite (main_prints_empty_listing (fun _ => "") (fun _ => Ok "")
             connect_id rpc_id
             (fun _ => [Message (wire challenge_frame);
                        Message (wire (response_frame connect_id true []));
                        Message (wire result_with_empty_listing)])
             "check-node-pairs.py" "ws://localhost:8080" token []
             (wire challenge_frame) (wire (response_frame connect_id true []))
             (wire result_with_empty_listing)
             [("pending", PyList []); ("paired", PyList [])] []);
    try reflexivity; try discriminate.
  - exists (response_frame connect_id true []). repeat split.
  - exists result_with_empty_listing. repeat split.
Defined.
